(** * Video downloader API: a shallow embedding of [app/main.py]

    The service is a thin HTTP layer over the [yt_dlp] extractor.  This file
    embeds the two request handlers ([download_video], [get_formats]) and
    the helpers they call ([format_size], [sanitize_filename],
    [create_download_path], [get_video_info]) and proves what they do.

    Modelling conventions.
    - A Python [str] is the list of its Unicode code points ([list N]).
    - What the interpreter supplies and the repository does not (the Unicode
      tables behind [str.isalnum] and [int], the digit limit of [int]) is a
      [PythonRuntime]; the external extractor is a [YoutubeDL].  Every
      definition and theorem is generic in both.
    - A handler is a computation over a [World] (working directory, paths
      that exist, extractor calls made so far) that returns a value or
      raises an [Exception].
    - Logging is left out: no handler branches on it. *)

From Stdlib Require Import List NArith ZArith QArith Qabs Bool Lia.
From Stdlib Require Import Ascii String DecimalString.
Import ListNotations.

Set Implicit Arguments.

Local Open Scope N_scope.

(* ===================================================================== *)
(** * Python strings *)
(* ===================================================================== *)

Definition str := list N.

(** The code points of an ASCII literal. *)
Definition codes (s : string) : str :=
  map N_of_ascii (list_ascii_of_string s).

Fixpoint str_eqb (a b : str) : bool :=
  match a, b with
  | [], [] => true
  | x :: a', y :: b' => (x =? y) && str_eqb a' b'
  | _, _ => false
  end.

(** [x == s] where [x] is the result of [dict.get] ([None] when the key is
    missing or null) and [s] is a string. *)
Definition opt_str_eqb (x : option str) (s : str) : bool :=
  match x with
  | Some v => str_eqb v s
  | None => false
  end.

(** [x == n] where [x] comes from [dict.get] and [n] is an int. *)
Definition opt_Z_eqb (x : option Z) (n : Z) : bool :=
  match x with
  | Some v => Z.eqb v n
  | None => false
  end.

(** [str.isspace] on one character: the whitespace set of CPython's Unicode
    type database. *)
Definition isspace (c : N) : bool :=
  ((9 <=? c) && (c <=? 13)) || ((28 <=? c) && (c <=? 32))
  || (c =? 133) || (c =? 160) || (c =? 5760)
  || ((8192 <=? c) && (c <=? 8202))
  || (c =? 8232) || (c =? 8233) || (c =? 8239) || (c =? 8287)
  || (c =? 12288).

Definition is_ascii_digit (c : N) : bool := (48 <=? c) && (c <=? 57).

Definition is_ascii_alpha (c : N) : bool :=
  ((65 <=? c) && (c <=? 90)) || ((97 <=? c) && (c <=? 122)).

(** What the Python interpreter contributes. *)
Class PythonRuntime := {
  (** [chr(c).isalnum()] for a code point [c >= 128] *)
  unicode_isalnum : N -> bool;
  (** the decimal digit value of a code point [c >= 128], if it has one *)
  unicode_decimal : N -> option N;
  (** [sys.get_int_max_str_digits()]; [0] switches the limit off *)
  int_max_str_digits : nat
}.

Fixpoint dropwhile {A} (p : A -> bool) (l : list A) : list A :=
  match l with
  | [] => []
  | x :: r => if p x then dropwhile p r else l
  end.

(** [s.lstrip()], [s.rstrip()] and [s.strip()] without argument. *)
Definition lstrip (s : str) : str := dropwhile isspace s.
Definition rstrip (s : str) : str := rev (dropwhile isspace (rev s)).
Definition strip (s : str) : str := rstrip (lstrip s).

(** [not l] for a list or string [l]. *)
Definition is_empty {A} (l : list A) : bool :=
  match l with [] => true | _ :: _ => false end.

(** [s.startswith(c)] and [s.endswith(c)] for one character [c]. *)
Definition starts_with (c : N) (s : str) : bool :=
  match s with
  | x :: _ => x =? c
  | [] => false
  end.

Definition ends_with (c : N) (s : str) : bool := starts_with c (rev s).

(** [s.replace(old, '')] for a one-character [old]. *)
Definition replace_char_empty (old : N) (s : str) : str :=
  filter (fun c => negb (c =? old)) s.

Section Helpers.
Context {py : PythonRuntime}.

(** [c.isalnum()] *)
Definition isalnum (c : N) : bool :=
  if c <? 128 then is_ascii_digit c || is_ascii_alpha c
  else unicode_isalnum c.

(** The test of the generator in [sanitize_filename]:
    [c.isalnum() or c in (' ', '.', '_', '-')]. *)
Definition keep_char (c : N) : bool :=
  isalnum c || ((c =? 32) || (c =? 46) || (c =? 95) || (c =? 45)).

(** <<
def sanitize_filename(name):
    return "".join(c for c in name if c.isalnum() or c in (' ', '.', '_', '-')).strip()
>> *)
Definition sanitize_filename (name : str) : str :=
  strip (filter keep_char name).

End Helpers.

(* ===================================================================== *)
(** * Python numbers: [int(str)], [str(int)] and [format(x, '.2f')] *)
(* ===================================================================== *)

(** [Py_ISSPACE], the C-locale whitespace test used by the integer parser. *)
Definition is_c_space (c : N) : bool :=
  ((9 <=? c) && (c <=? 13)) || (c =? 32).

(** The scanning loop of [PyLong_FromString] in base 10: digits with single
    underscores between them.  Returns the number of digits, their value and
    the unread rest; fails on a doubled or a trailing underscore. *)
Fixpoint scan_digits (s : str) (prev_underscore : bool) (digits : nat) (acc : Z)
  : option (nat * Z * str) :=
  match s with
  | c :: r =>
      if is_ascii_digit c
      then scan_digits r false (S digits) (10 * acc + Z.of_N (c - 48))%Z
      else if c =? 95
      then (if prev_underscore then None else scan_digits r true digits acc)
      else (if prev_underscore then None else Some (digits, acc, s))
  | [] => if prev_underscore then None else Some (digits, acc, [])
  end.

Section Numbers.
Context {py : PythonRuntime}.

(** [_PyUnicode_TransformDecimalAndSpaceToASCII]: an all-ASCII string is
    returned as it is; otherwise Unicode spaces become [' '], Unicode decimal
    digits become ASCII digits, and the first other non-ASCII character is
    replaced by ['?'] and ends the buffer. *)
Fixpoint transform_loop (s : str) : str :=
  match s with
  | [] => []
  | c :: r =>
      if c <? 127 then c :: transform_loop r
      else if isspace c then 32 :: transform_loop r
      else if c <? 128 then [63]
      else match unicode_decimal c with
           | Some d => (48 + d) :: transform_loop r
           | None => [63]
           end
  end.

Definition transform_decimal_and_space (s : str) : str :=
  if forallb (fun c => c <? 128) s then s else transform_loop s.

(** The digit-count guard of [PyLong_FromString]: it applies above 640
    digits, when a limit is configured. *)
Definition exceeds_digit_limit (digits : nat) : bool :=
  (640 <? digits)%nat && (0 <? int_max_str_digits)%nat
  && (int_max_str_digits <? digits)%nat.

(** [PyLong_FromString(buffer, base=10)]: leading whitespace, an optional
    sign, no leading underscore, at least one digit, trailing whitespace,
    and nothing else. *)
Definition PyLong_FromString (buffer : str) : option Z :=
  let s1 := dropwhile is_c_space buffer in
  let '(negative, s2) :=
    if starts_with 43 s1 then (false, tl s1)
    else if starts_with 45 s1 then (true, tl s1)
    else (false, s1) in
  if starts_with 95 s2 then None
  else
    match scan_digits s2 false 0 0 with
    | None => None
    | Some (digits, v, rest) =>
        if exceeds_digit_limit digits then None
        else if (digits =? 0)%nat then None
        else if is_empty (dropwhile is_c_space rest)
        then Some (if negative then (- v)%Z else v)
        else None
    end.

(** [int(s)] for a string [s]; [None] stands for [ValueError]. *)
Definition py_int (s : str) : option Z :=
  PyLong_FromString (transform_decimal_and_space s).

End Numbers.

(** [str(n)] for an int [n]. *)
Definition str_of_Z (n : Z) : str :=
  codes (NilZero.string_of_int (Z.to_int n)).

(** Nearest integer, ties to even. *)
Definition round_half_even (q : Q) : Z :=
  let n := Qnum q in
  let d := Zpos (Qden q) in
  let f := (n / d)%Z in
  match (2 * (n mod d) ?= d)%Z with
  | Lt => f
  | Gt => (f + 1)%Z
  | Eq => if Z.even f then f else (f + 1)%Z
  end.

Definition two_digits (r : Z) : str :=
  [Z.to_N (48 + r / 10); Z.to_N (48 + r mod 10)]%Z.

(** [f"{x:.2f}"].  The value is an exact rational: this is what Python prints
    when [x] is an int below [2^53] or such an int divided by a power of
    1024, which floats represent exactly. *)
Definition format_2f (x : Q) : str :=
  let r := round_half_even (Qabs x * 100) in
  (if Qle_bool 0 x then [] else [45])
  ++ str_of_Z (r / 100) ++ [46] ++ two_digits (r mod 100).

(* ===================================================================== *)
(** * [format_size] *)
(* ===================================================================== *)

Definition Qlt_bool (a b : Q) : bool := negb (Qle_bool b a).

(** The [for unit in [...]] loop; the tail of the unit list is what is left
    to try, and running out of units is the fall-through to ["TB"]. *)
Fixpoint format_size_loop (units : list str) (size : Q) : str :=
  match units with
  | unit :: rest =>
      if Qlt_bool size 1024
      then format_2f size ++ [32] ++ unit
      else format_size_loop rest (size / 1024)
  | [] => format_2f size ++ codes " TB"
  end.

(** The size is an exact rational (see [format_2f]).  This is Python's
    result for [None] and for an integer count [n] with [|n| < 2^53];
    beyond that floats round, and a count too large for a float raises
    [OverflowError].
<<
def format_size(size):
    if size is None:
        return "Unknown size"
    for unit in ['B', 'KB', 'MB', 'GB']:
        if size < 1024:
            return f"{size:.2f} {unit}"
        size /= 1024
    return f"{size:.2f} TB"
>> *)
Definition format_size (size : option Z) : str :=
  match size with
  | None => codes "Unknown size"
  | Some n =>
      format_size_loop [codes "B"; codes "KB"; codes "MB"; codes "GB"]
                       (inject_Z n)
  end.

(** The unit names in the order the function goes through them. *)
Definition units : list str :=
  [codes "B"; codes "KB"; codes "MB"; codes "GB"; codes "TB"].

(** The position in [units] at which the loop stops for a byte count [n]. *)
Definition unit_index (n : Z) : nat :=
  if (n <? 1024)%Z then 0
  else if (n <? 1024 ^ 2)%Z then 1
  else if (n <? 1024 ^ 3)%Z then 2
  else if (n <? 1024 ^ 4)%Z then 3
  else 4.

(** [size] after [k] rounds of [size /= 1024]. *)
Fixpoint divided (k : nat) (size : Q) : Q :=
  match k with
  | O => size
  | S k' => divided k' (size / 1024)
  end.

(* ===================================================================== *)
(** * Data model *)
(* ===================================================================== *)

(** One entry of [info['formats']].  A field read with [f.get] is an option:
    [None] is a missing key or a null.  [format_id] is read with [f[...]]
    and is always supplied by the extractor. *)
Record Format := {
  format_id : str;
  format_note : option str;
  height : option Z;
  vcodec : option str;
  filesize : option Z;
  filesize_approx : option Z;
  ext : option str
}.

(** The dictionary returned by the probe; [None] is a missing key. *)
Record InfoDict := {
  info_title : option str;
  info_formats : option (list Format)
}.

(** <<
class DownloadRequest(BaseModel):
    url: HttpUrl
    resolution: str
>>
    [request_url] is the text [str(request.url)] that the handler uses. *)
Record DownloadRequest := {
  request_url : str;
  request_resolution : str
}.

(** The options handed to the extractor for a download (the logger object
    is left out). *)
Record YdlOpts := {
  quiet : bool;
  no_warnings : bool;
  format : str;
  outtmpl : str;
  merge_output_format : str;
  ignoreerrors : bool
}.

(** The exceptions the handlers meet.  All three derive from Python's
    [Exception], [HTTPException] included, so [except Exception] catches
    each of them. *)
Inductive Exception :=
| HTTPException (status_code : Z) (detail : str)
| ValueError (literal : str)     (* int() rejected this string *)
| YdlError (message : str).      (* anything raised inside yt_dlp *)

Inductive Result (A : Type) :=
| Ok (a : A)
| Raise (e : Exception).
Arguments Ok {A} a.
Arguments Raise {A} e.

(** One element of [available_formats]. *)
Record FormatEntry := {
  entry_format_id : str;
  entry_resolution : option str;
  entry_filesize : str;
  entry_ext : option str
}.

(** What a handler returns: a [JSONResponse] (built with the default status
    200), a [FileResponse], or the dictionary of [get_formats]. *)
Inductive Response :=
| JSONResponse (content : list (str * str)) (status_code : Z)
| FileResponse (path media_type filename : str)
| InfoBody (title : option str) (available_formats : list FormatEntry).

(** Calls made on the extractor. *)
Inductive Call :=
| ExtractInfo (url : str)
| Download (opts : YdlOpts) (url : str).

Record World := {
  cwd : str;               (* os.getcwd() *)
  paths : list str;        (* the paths for which os.path.exists holds *)
  calls : list Call        (* extractor calls so far, oldest first *)
}.

(** The extractor.  [extract_info] is the probe: it raises (left, with the
    text of the exception) or returns the info dictionary.  [download] may
    raise and leaves a new set of paths behind. *)
Class YoutubeDL := {
  extract_info : World -> str -> str + InfoDict;
  download : World -> YdlOpts -> str -> option str * list str
}.

(* ===================================================================== *)
(** * Computations that read and change the world and may raise *)
(* ===================================================================== *)

Definition M (A : Type) : Type := World -> Result A * World.

Definition ret {A} (a : A) : M A := fun w => (Ok a, w).

Definition raise {A} (e : Exception) : M A := fun w => (Raise e, w).

Definition bind {A B} (m : M A) (k : A -> M B) : M B :=
  fun w =>
    match m w with
    | (Ok a, w') => k a w'
    | (Raise e, w') => (Raise e, w')
    end.

(** [try: m  except Exception as e: handler e] *)
Definition try_except {A} (m : M A) (handler : Exception -> M A) : M A :=
  fun w =>
    match m w with
    | (Ok a, w') => (Ok a, w')
    | (Raise e, w') => handler e w'
    end.

(** A computation without effect on the world. *)
Definition lift {A} (r : Result A) : M A := fun w => (r, w).

Declare Scope py_scope.
Delimit Scope py_scope with py.
Notation "x <- m ;; k" := (bind m (fun x => k))
  (at level 61, m at next level, right associativity) : py_scope.
Notation "m ;;; k" := (bind m (fun _ => k))
  (at level 61, right associativity) : py_scope.
Local Open Scope py_scope.

(** [str(e)] as the handlers interpolate it into a detail string.  For an
    [HTTPException] this is ["<status_code>: <detail>"].  The text of a
    [ValueError] quotes the literal plainly where Python prints its [repr];
    no handler formats one, since no [int] runs inside a [try]. *)
Definition exception_str (e : Exception) : str :=
  match e with
  | HTTPException status_code detail =>
      str_of_Z status_code ++ codes ": " ++ detail
  | ValueError literal =>
      codes "invalid literal for int() with base 10: '" ++ literal ++ codes "'"
  | YdlError message => message
  end.

(** [os.path.join(a, b)] on POSIX. *)
Definition path_join (a b : str) : str :=
  if starts_with 47 b then b
  else if is_empty a || ends_with 47 a then a ++ b
  else a ++ [47] ++ b.

(** [os.path.exists(p)] *)
Definition path_exists (p : str) : M bool :=
  fun w => (Ok (existsb (str_eqb p) (paths w)), w).

(** [os.makedirs(path, exist_ok=True)] where the call returns: the path is
    a directory already, or is absent and can be created.  Where the path is
    a regular file, or the directory cannot be created, Python raises
    [OSError] and the handler stops before it probes; those runs are outside
    this model, and the statements about [download_video] speak of runs in
    which the probe was reached. *)
Definition makedirs (path : str) : M unit :=
  fun w =>
    (Ok tt,
     if existsb (str_eqb path) (paths w) then w
     else {| cwd := cwd w; paths := paths w ++ [path]; calls := calls w |}).

(** <<
def create_download_path():
    path = os.path.join(os.getcwd(), "downloads")
    os.makedirs(path, exist_ok=True)
    return path
>> *)
Definition create_download_path : M str :=
  fun w =>
    let path := path_join (cwd w) (codes "downloads") in
    (makedirs path ;;; ret path) w.

(** The extensions of the existence check: [['mp4', 'mkv', 'webm']]. *)
Definition video_extensions : list str :=
  [codes "mp4"; codes "mkv"; codes "webm"].

(** [any(os.path.exists(os.path.join(download_path, f"{title}.{ext}"))
         for ext in exts)] *)
Fixpoint any_exists (download_path title : str) (exts : list str) : M bool :=
  match exts with
  | [] => ret false
  | ext :: rest =>
      b <- path_exists (path_join download_path (title ++ [46] ++ ext)) ;;
      if b then ret true else any_exists download_path title rest
  end.

(** [info.get('formats', [])] *)
Definition get_formats_or_empty (info : InfoDict) : list Format :=
  match info_formats info with
  | Some formats => formats
  | None => []
  end.

(** [info.get('title', 'video')] *)
Definition get_title_or_video (info : InfoDict) : str :=
  match info_title info with
  | Some title => title
  | None => codes "video"
  end.

(** [f.get('vcodec') != 'none'] *)
Definition vcodec_not_none (f : Format) : bool :=
  negb (opt_str_eqb (vcodec f) (codes "none")).

(** [f.get('format_note') or f.get('height')], with an int rendered as
    [f"{resolution}p"]. *)
Definition listing_resolution (f : Format) : option str :=
  match format_note f with
  | Some (c :: r) => Some (c :: r)
  | _ =>
      match height f with
      | Some h => Some (str_of_Z h ++ codes "p")
      | None => None
      end
  end.

(** [f.get('filesize') or f.get('filesize_approx')] *)
Definition listing_filesize (f : Format) : option Z :=
  match filesize f with
  | Some n => if (n =? 0)%Z then filesize_approx f else Some n
  | None => filesize_approx f
  end.

(** The [for f in formats] loop of [get_formats]. *)
Fixpoint available_formats_loop (formats : list Format)
    (filtered_formats : list FormatEntry) : list FormatEntry :=
  match formats with
  | [] => filtered_formats
  | f :: rest =>
      let resolution := listing_resolution f in
      if vcodec_not_none f
      then available_formats_loop rest
             (filtered_formats ++
              [{| entry_format_id := format_id f;
                  entry_resolution := resolution;
                  entry_filesize := format_size (listing_filesize f);
                  entry_ext := ext f |}])
      else available_formats_loop rest filtered_formats
  end.

Section Handlers.
Context {py : PythonRuntime} {ydl : YoutubeDL}.

(** [ydl.extract_info(url, download=False)] *)
Definition call_extract_info (url : str) : M InfoDict :=
  fun w =>
    let w' := {| cwd := cwd w; paths := paths w;
                 calls := calls w ++ [ExtractInfo url] |} in
    match extract_info w url with
    | inl message => (Raise (YdlError message), w')
    | inr info => (Ok info, w')
    end.

(** [ydl.download([url])] on an extractor built with [opts] *)
Definition call_download (opts : YdlOpts) (url : str) : M unit :=
  fun w =>
    let '(raised, paths') := download w opts url in
    let w' := {| cwd := cwd w; paths := paths';
                 calls := calls w ++ [Download opts url] |} in
    match raised with
    | Some message => (Raise (YdlError message), w')
    | None => (Ok tt, w')
    end.

(** <<
def get_video_info(url):
    try:
        with yt_dlp.YoutubeDL({...}) as ydl:
            return ydl.extract_info(url, download=False)
    except Exception as e:
        raise HTTPException(status_code=400, detail=f"Failed to fetch video info: {e}")
>> *)
Definition get_video_info (url : str) : M InfoDict :=
  try_except (call_extract_info url)
    (fun e => raise (HTTPException 400
                (codes "Failed to fetch video info: " ++ exception_str e))).

(** The condition of the comprehension in [download_video], with Python's
    short-circuit order: [int] runs only for an entry that passed the codec
    test and whose [format_note] differs from the request. *)
Definition format_matches (resolution : str) (f : Format) : Result bool :=
  if vcodec_not_none f then
    if opt_str_eqb (format_note f) resolution then Ok true
    else
      let literal := replace_char_empty 112 resolution in
      match py_int literal with
      | Some n => Ok (opt_Z_eqb (height f) n)
      | None => Raise (ValueError literal)
      end
  else Ok false.

(** <<
    filtered = [
        f for f in formats
        if f.get('vcodec') != 'none'
        and (f.get('format_note') == resolution or f.get('height') == int(resolution.replace('p', '')))
    ]
>> *)
Fixpoint filter_formats (resolution : str) (formats : list Format)
  : Result (list Format) :=
  match formats with
  | [] => Ok []
  | f :: rest =>
      match format_matches resolution f with
      | Raise e => Raise e
      | Ok b =>
          match filter_formats resolution rest with
          | Raise e => Raise e
          | Ok filtered => Ok (if b then f :: filtered else filtered)
          end
      end
  end.

(** The format selector, lines 81 to 90 of the handler: <<
    filtered = [...]
    if not filtered:
        raise HTTPException(status_code=404, detail="No matching format found")
    selected = filtered[0]
>> *)
Definition select_format (resolution : str) (formats : list Format)
  : Result Format :=
  match filter_formats resolution formats with
  | Raise e => Raise e
  | Ok [] => Raise (HTTPException 404 (codes "No matching format found"))
  | Ok (selected :: _) => Ok selected
  end.

(** The [ydl_opts] dictionary of [download_video]. *)
Definition make_ydl_opts (selected : Format) (download_path : str) : YdlOpts :=
  {| quiet := true;
     no_warnings := true;
     format := format_id selected ++ codes "+bestaudio/best";
     outtmpl := path_join download_path (codes "%(title)s.%(ext)s");
     merge_output_format := codes "mp4";
     ignoreerrors := true |}.

(** The handler of [POST /download]. *)
Definition download_video (request : DownloadRequest) : M Response :=
  let url := request_url request in
  let resolution := request_resolution request in
  download_path <- create_download_path ;;
  info <- get_video_info url ;;
  let formats := get_formats_or_empty info in
  selected <- lift (select_format resolution formats) ;;
  let title := sanitize_filename (get_title_or_video info) in
  file_exists <- any_exists download_path title video_extensions ;;
  if file_exists
  then ret (JSONResponse
              [(codes "status", codes "exists");
               (codes "message", codes "Video already downloaded.")] 200)
  else
    let ydl_opts := make_ydl_opts selected download_path in
    try_except
      (call_download ydl_opts url ;;;
       let file_path := path_join download_path (title ++ codes ".mp4") in
       ret (FileResponse file_path (codes "video/mp4") (title ++ codes ".mp4")))
      (fun e => raise (HTTPException 500
                  (codes "Download failed: " ++ exception_str e))).

(** The handler of [GET /info]. *)
Definition get_formats (url : str) : M Response :=
  try_except
    (info <- get_video_info url ;;
     let formats := get_formats_or_empty info in
     if is_empty formats
     then raise (HTTPException 404 (codes "No valid video formats found."))
     else
       let filtered_formats : list FormatEntry := [] in
       if is_empty filtered_formats
       then raise (HTTPException 404 (codes "No valid video formats found."))
       else
         let filtered_formats := available_formats_loop formats filtered_formats in
         ret (InfoBody (info_title info) filtered_formats))
    (fun e => raise (HTTPException 500
                (codes "Failed to fetch video info: " ++ exception_str e))).

End Handlers.

(* ===================================================================== *)
(** * Vocabulary of the statements *)
(* ===================================================================== *)

(** The number written by a string of ASCII digits. *)
Definition digits_value (ds : str) : Z :=
  fold_left (fun acc c => (10 * acc + Z.of_N (c - 48))%Z) ds 0%Z.

(** [resolution] is a label ["<int>p"] that denotes [n]: decimal digits,
    within the digit limit of [int], followed by [p]. *)
Definition int_label {py : PythonRuntime} (resolution : str) (n : Z) : Prop :=
  exists ds : str,
    ds <> []
    /\ forallb is_ascii_digit ds = true
    /\ exceeds_digit_limit (List.length ds) = false
    /\ resolution = ds ++ codes "p"
    /\ n = digits_value ds.

(** A rendition that the request accepts: its video codec is not ["none"]
    and its label is the requested one or its height the requested number. *)
Definition acceptable (resolution : str) (n : Z) (f : Format) : Prop :=
  vcodec f <> Some (codes "none")
  /\ (format_note f = Some resolution \/ height f = Some n).

Definition acceptableb (resolution : str) (n : Z) (f : Format) : bool :=
  vcodec_not_none f
  && (opt_str_eqb (format_note f) resolution || opt_Z_eqb (height f) n).


(** The download directory, and the world once it has been created. *)
Definition download_dir (w : World) : str :=
  path_join (cwd w) (codes "downloads").

Definition after_makedirs (w : World) : World :=
  snd (create_download_path w).

(** The world once the handler has probed [url]. *)
Definition after_probe (url : str) (w : World) : World :=
  {| cwd := cwd (after_makedirs w);
     paths := paths (after_makedirs w);
     calls := calls (after_makedirs w) ++ [ExtractInfo url] |}.

(** The world once the extractor has been asked to download. *)
Definition after_download {ydl : YoutubeDL} (opts : YdlOpts) (url : str)
    (w : World) : World :=
  {| cwd := cwd w;
     paths := snd (download w opts url);
     calls := calls w ++ [Download opts url] |}.

(** One of [<title>.mp4], [<title>.mkv], [<title>.webm] exists under
    [download_path]. *)
Definition title_exists (download_path title : str) (w : World) : bool :=
  existsb
    (fun ext =>
       existsb (str_eqb (path_join download_path (title ++ [46] ++ ext)))
               (paths w))
    video_extensions.

(** The body of the answer ["exists"]. *)
Definition exists_response : Response :=
  JSONResponse
    [(codes "status", codes "exists");
     (codes "message", codes "Video already downloaded.")] 200.


(* ===================================================================== *)
(** * Sample data *)
(* ===================================================================== *)

(** An interpreter whose Unicode tables are empty beyond ASCII, with the
    default digit limit; the samples below are ASCII throughout. *)
Definition ascii_runtime : PythonRuntime :=
  {| unicode_isalnum := fun _ => false;
     unicode_decimal := fun _ => None;
     int_max_str_digits := 4300 |}.

(** An extractor stub: the probe returns [info]; a download raises
    [raised] (if any) and creates the paths [written]. *)
Definition stub_ydl (info : InfoDict) (raised : option str)
    (written : list str) : YoutubeDL :=
  {| extract_info := fun _ _ => inr info;
     download := fun w _ _ => (raised, paths w ++ written) |}.

(** An extractor stub whose probe raises [message]. *)
Definition stub_ydl_unreachable (message : str) : YoutubeDL :=
  {| extract_info := fun _ _ => inl message;
     download := fun w _ _ => (None, paths w) |}.

Definition sample_video : Format :=
  {| format_id := codes "22";
     format_note := Some (codes "720p");
     height := Some 720%Z;
     vcodec := Some (codes "avc1.64001F");
     filesize := Some 1572864%Z;
     filesize_approx := None;
     ext := Some (codes "mp4") |}.

Definition sample_audio : Format :=
  {| format_id := codes "140";
     format_note := Some (codes "medium");
     height := None;
     vcodec := Some (codes "none");
     filesize := Some 2048%Z;
     filesize_approx := None;
     ext := Some (codes "m4a") |}.

(** An entry without a [vcodec] key. *)
Definition sample_no_vcodec : Format :=
  {| format_id := codes "18";
     format_note := None;
     height := Some 360%Z;
     vcodec := None;
     filesize := None;
     filesize_approx := None;
     ext := Some (codes "mp4") |}.

Definition sample_info : InfoDict :=
  {| info_title := Some (codes "My Video: Part #1");
     info_formats := Some [sample_audio; sample_video] |}.

Definition sample_info_no_formats : InfoDict :=
  {| info_title := Some (codes "My Video: Part #1");
     info_formats := Some [] |}.

Definition sample_url : str := codes "https://example.com/watch?v=1".

Definition sample_request : DownloadRequest :=
  {| request_url := sample_url; request_resolution := codes "720p" |}.

(** A fresh working directory. *)
Definition sample_world : World :=
  {| cwd := codes "/srv/app"; paths := [codes "/srv/app"]; calls := [] |}.

(** A working directory in which the video was downloaded before. *)
Definition sample_world_cached : World :=
  {| cwd := codes "/srv/app";
     paths := [codes "/srv/app"; codes "/srv/app/downloads";
               codes "/srv/app/downloads/My Video Part 1.mp4"];
     calls := [] |}.

(* ===================================================================== *)
(** * Properties *)
(* ===================================================================== *)

Section ListFacts.
Context {A : Type} (p : A -> bool).

Lemma dropwhile_suffix (l : list A) :
  exists pre, l = pre ++ dropwhile p l /\ Forall (fun x => p x = true) pre.
Proof.
  induction l as [|x r [pre [E F]]]; simpl.
  - exists []. split; [reflexivity | constructor].
  - destruct (p x) eqn:Px.
    + exists (x :: pre). split.
      * simpl. now rewrite <- E.
      * now constructor.
    + exists []. split; [reflexivity | constructor].
Qed.

Lemma dropwhile_head (l : list A) (x : A) (r : list A) :
  dropwhile p l = x :: r -> p x = false.
Proof.
  induction l as [|y l' IH]; simpl; [discriminate|].
  destruct (p y) eqn:Py; [exact IH|].
  intros E. injection E as -> _. exact Py.
Qed.

Lemma dropwhile_fixed (l : list A) :
  match l with [] => True | x :: _ => p x = false end ->
  dropwhile p l = l.
Proof.
  destruct l as [|x r]; simpl; [reflexivity|]. now intros ->.
Qed.

Lemma dropwhile_idem (l : list A) :
  dropwhile p (dropwhile p l) = dropwhile p l.
Proof.
  apply dropwhile_fixed.
  destruct (dropwhile p l) as [|x r] eqn:E; [exact I|].
  exact (dropwhile_head _ E).
Qed.


End ListFacts.


(** ** [strip] *)

Lemma rstrip_prefix (s : str) :
  exists post, s = rstrip s ++ post /\ Forall (fun c => isspace c = true) post.
Proof.
  unfold rstrip.
  destruct (dropwhile_suffix isspace (rev s)) as [q [E F]].
  exists (rev q). split.
  - rewrite <- rev_app_distr, <- E. now rewrite rev_involutive.
  - apply Forall_rev. exact F.
Qed.

Lemma rstrip_last (s r : str) (c : N) :
  rstrip s = r ++ [c] -> isspace c = false.
Proof.
  unfold rstrip. intros E.
  apply (f_equal (@rev N)) in E.
  rewrite rev_involutive, rev_app_distr in E. simpl in E.
  exact (dropwhile_head _ _ E).
Qed.

Lemma rstrip_idem (s : str) : rstrip (rstrip s) = rstrip s.
Proof.
  unfold rstrip. rewrite rev_involutive. now rewrite dropwhile_idem.
Qed.

Lemma strip_decompose (s : str) :
  exists pre post,
    s = pre ++ strip s ++ post
    /\ Forall (fun c => isspace c = true) pre
    /\ Forall (fun c => isspace c = true) post.
Proof.
  unfold strip, lstrip.
  destruct (dropwhile_suffix isspace s) as [pre [E F]].
  destruct (rstrip_prefix (dropwhile isspace s)) as [post [E' F']].
  exists pre, post. repeat split; try assumption.
  rewrite <- E'. exact E.
Qed.

Lemma strip_first (s r : str) (c : N) :
  strip s = c :: r -> isspace c = false.
Proof.
  unfold strip, lstrip. intros E.
  destruct (rstrip_prefix (dropwhile isspace s)) as [post [E' _]].
  rewrite E in E'. simpl in E'.
  exact (dropwhile_head _ _ E').
Qed.

Lemma strip_last (s r : str) (c : N) :
  strip s = r ++ [c] -> isspace c = false.
Proof. unfold strip. apply rstrip_last. Qed.

Lemma strip_idem (s : str) : strip (strip s) = strip s.
Proof.
  unfold strip at 1. unfold lstrip.
  rewrite dropwhile_fixed.
  - unfold strip. apply rstrip_idem.
  - destruct (strip s) as [|c r] eqn:E; [exact I|].
    exact (strip_first _ E).
Qed.

Lemma strip_incl (s : str) (c : N) : In c (strip s) -> In c s.
Proof.
  intros H.
  destruct (strip_decompose s) as [pre [post [E _]]].
  rewrite E. apply in_or_app. right. apply in_or_app. now left.
Qed.

Lemma filter_fixed {A} (p : A -> bool) (l : list A) :
  (forall x, In x l -> p x = true) -> filter p l = l.
Proof.
  induction l as [|x r IH]; simpl; intros H; [reflexivity|].
  rewrite (H x (or_introl eq_refl)). f_equal. apply IH. auto.
Qed.

Section SanitizeFilename.
Context {py : PythonRuntime}.

Lemma keep_char_iff (c : N) :
  keep_char c = true <->
  isalnum c = true \/ c = 32 \/ c = 46 \/ c = 95 \/ c = 45.
Proof.
  unfold keep_char.
  rewrite !orb_true_iff, !N.eqb_eq. tauto.
Qed.

(** C8.  [sanitize_filename name] is the sequence of the characters of
    [name] that are alphanumeric or one of space, dot, underscore, hyphen,
    in their order, with the whitespace at both ends removed: what is cut
    off on either side is whitespace only, and the result neither starts nor
    ends with a whitespace character.  On ["My Video: Part #1.mp4"] the
    result is ["My Video Part 1.mp4"]. *)
Theorem sanitize_filename_keeps_and_trims :
  (forall name : str,
     (exists pre post,
        filter keep_char name = pre ++ sanitize_filename name ++ post
        /\ Forall (fun c => isspace c = true) pre
        /\ Forall (fun c => isspace c = true) post)
     /\ (forall c r, sanitize_filename name = c :: r -> isspace c = false)
     /\ (forall c r, sanitize_filename name = r ++ [c] -> isspace c = false))
  /\ (forall c : N,
        keep_char c = true <->
        isalnum c = true \/ c = 32 \/ c = 46 \/ c = 95 \/ c = 45)
  /\ sanitize_filename (codes "My Video: Part #1.mp4")
     = codes "My Video Part 1.mp4".
Proof.
  split; [|split].
  - intros name. unfold sanitize_filename. repeat split.
    + apply strip_decompose.
    + intros c r. apply strip_first.
    + intros c r. apply strip_last.
  - apply keep_char_iff.
  - reflexivity.
Qed.

Lemma sanitize_filename_kept (name : str) (c : N) :
  In c (sanitize_filename name) -> keep_char c = true.
Proof.
  unfold sanitize_filename. intros H.
  apply strip_incl in H. apply filter_In in H. tauto.
Qed.

(** C9.  [sanitize_filename] is idempotent. *)
Theorem sanitize_filename_idempotent (s : str) :
  sanitize_filename (sanitize_filename s) = sanitize_filename s.
Proof.
  unfold sanitize_filename at 1.
  rewrite filter_fixed by apply sanitize_filename_kept.
  unfold sanitize_filename. apply strip_idem.
Qed.

End SanitizeFilename.

(** ** Number formatting *)

Lemma round_half_even_nearest (n : Z) (d : positive) :
  (2 * Z.abs (n - round_half_even (n # d) * Zpos d) <= Zpos d)%Z.
Proof.
  unfold round_half_even. cbn [Qnum Qden].
  pose proof (Z.div_mod n (Zpos d) ltac:(lia)) as E.
  pose proof (Z.mod_pos_bound n (Zpos d) ltac:(lia)) as B.
  set (f := (n / Zpos d)%Z) in *. set (m := (n mod Zpos d)%Z) in *.
  assert (R : (n - f * Zpos d = m)%Z) by lia.
  assert (R1 : (n - (f + 1) * Zpos d = m - Zpos d)%Z) by lia.
  destruct (Z.compare_spec (2 * m) (Zpos d)) as [C|C|C];
    [destruct (Z.even f)| |]; rewrite ?R, ?R1; lia.
Qed.

Lemma round_half_even_nonneg (q : Q) :
  (0 <= Qnum q)%Z -> (0 <= round_half_even q)%Z.
Proof.
  intros H. unfold round_half_even.
  assert (0 <= Qnum q / Zpos (Qden q))%Z by (apply Z.div_pos; lia).
  destruct (2 * (Qnum q mod Zpos (Qden q)) ?= Zpos (Qden q))%Z;
    [destruct (Z.even _)| |]; lia.
Qed.

Lemma string_of_uint_digits (d : Decimal.uint) :
  forallb is_ascii_digit (codes (NilEmpty.string_of_uint d)) = true.
Proof.
  induction d; simpl; try reflexivity; exact IHd.
Qed.

Lemma str_of_Z_digits (n : Z) :
  (0 <= n)%Z ->
  forallb is_ascii_digit (str_of_Z n) = true /\ str_of_Z n <> [].
Proof.
  intros H. unfold str_of_Z.
  destruct n as [|p|p]; [split; [reflexivity | discriminate] | | lia].
  simpl. unfold NilZero.string_of_uint.
  destruct (Pos.to_uint p) eqn:E;
    (split; [ first [reflexivity | apply (string_of_uint_digits (_ u))]
            | discriminate ]).
Qed.

Lemma digit_char (x : Z) :
  (0 <= x <= 9)%Z -> is_ascii_digit (Z.to_N (48 + x)) = true.
Proof.
  intros H. unfold is_ascii_digit.
  apply andb_true_intro. split; apply N.leb_le; lia.
Qed.

Lemma format_2f_shape (x : Q) :
  (0 <= Qnum x)%Z ->
  exists whole d1 d2,
    format_2f x = whole ++ [46; d1; d2]
    /\ whole <> []
    /\ forallb is_ascii_digit (whole ++ [d1; d2]) = true.
Proof.
  intros H. unfold format_2f.
  set (r := round_half_even (Qabs x * 100)).
  assert (Hr : (0 <= r)%Z).
  { apply round_half_even_nonneg. destruct x as [n d]. simpl in *. lia. }
  assert (Hs : Qle_bool 0 x = true).
  { unfold Qle_bool. simpl. apply Z.leb_le. lia. }
  rewrite Hs. simpl.
  destruct (@str_of_Z_digits (r / 100)%Z) as [D NE]; [apply Z.div_pos; lia|].
  pose proof (Z.mod_pos_bound r 100 ltac:(lia)) as B.
  exists (str_of_Z (r / 100)%Z), (Z.to_N (48 + (r mod 100) / 10)%Z),
         (Z.to_N (48 + (r mod 100) mod 10)%Z).
  split; [reflexivity | split; [exact NE|]].
  rewrite forallb_app, D. cbn [forallb andb].
  rewrite !digit_char; [reflexivity | |].
  - pose proof (Z.mod_pos_bound (r mod 100) 10 ltac:(lia)). lia.
  - split; [apply Z.div_pos; lia|].
    assert ((r mod 100) / 10 < 10)%Z by (apply Z.div_lt_upper_bound; lia). lia.
Qed.

(** ** [format_size] *)

Lemma Qlt_bool_1024 (n : Z) (d : positive) :
  Qlt_bool (n # d) 1024 = (n <? 1024 * Zpos d)%Z.
Proof.
  unfold Qlt_bool, Qle_bool. cbn [Qnum Qden].
  rewrite Z.mul_1_r. now rewrite Z.ltb_antisym.
Qed.

Lemma Qdiv_1024 (n : Z) (d : positive) :
  ((n # d) / 1024)%Q = (n # (d * 1024)).
Proof.
  unfold Qdiv, Qmult, Qinv. cbn [Qnum Qden].
  now rewrite Z.mul_1_r.
Qed.

Lemma divided_value (k : nat) (n : Z) (d : positive) :
  Qnum (divided k (n # d)) = n
  /\ Zpos (Qden (divided k (n # d))) = (Zpos d * 1024 ^ Z.of_nat k)%Z.
Proof.
  revert d. induction k as [|k IH]; intros d.
  - simpl. split; [reflexivity | lia].
  - cbn [divided]. rewrite Qdiv_1024.
    destruct (IH (d * 1024)%positive) as [E1 E2]. split; [exact E1|].
    rewrite E2, Nat2Z.inj_succ, Z.pow_succ_r by lia. lia.
Qed.

Lemma format_size_closed_form (n : Z) :
  format_size (Some n)
  = format_2f (divided (unit_index n) (inject_Z n))
    ++ [32] ++ nth (unit_index n) units [].
Proof.
  unfold format_size, unit_index, inject_Z.
  cbn [format_size_loop].
  rewrite Qlt_bool_1024.
  destruct (n <? 1024)%Z eqn:E0; [rewrite Z.ltb_lt in E0|rewrite Z.ltb_ge in E0].
  { replace (n <? 1024 * 1)%Z with true by (symmetry; apply Z.ltb_lt; lia).
    reflexivity. }
  replace (n <? 1024 * 1)%Z with false by (symmetry; apply Z.ltb_ge; lia).
  rewrite Qdiv_1024, Qlt_bool_1024.
  destruct (n <? 1024 ^ 2)%Z eqn:E1; [rewrite Z.ltb_lt in E1|rewrite Z.ltb_ge in E1].
  { replace (n <? _)%Z with true by (symmetry; apply Z.ltb_lt; lia).
    cbn [divided]. now rewrite Qdiv_1024. }
  replace (n <? _)%Z with false by (symmetry; apply Z.ltb_ge; lia).
  rewrite Qdiv_1024, Qlt_bool_1024.
  destruct (n <? 1024 ^ 3)%Z eqn:E2; [rewrite Z.ltb_lt in E2|rewrite Z.ltb_ge in E2].
  { replace (n <? _)%Z with true by (symmetry; apply Z.ltb_lt; lia).
    cbn [divided]. now rewrite !Qdiv_1024. }
  replace (n <? _)%Z with false by (symmetry; apply Z.ltb_ge; lia).
  rewrite Qdiv_1024, Qlt_bool_1024.
  destruct (n <? 1024 ^ 4)%Z eqn:E3; [rewrite Z.ltb_lt in E3|rewrite Z.ltb_ge in E3].
  { replace (n <? _)%Z with true by (symmetry; apply Z.ltb_lt; lia).
    cbn [divided]. now rewrite !Qdiv_1024. }
  replace (n <? _)%Z with false by (symmetry; apply Z.ltb_ge; lia).
  cbn [divided]. rewrite !Qdiv_1024. reflexivity.
Qed.

(** C7.  [format_size] renders a byte count with a binary prefix and two
    decimals: [500] gives ["500.00 B"], [2048] gives ["2.00 KB"], [1572864]
    gives ["1.50 MB"], [None] gives ["Unknown size"]; and for every count
    [n] in the range that floats hold exactly, the result is the fraction
    [n / 1024^k] printed as digits, a dot and two digits, a space, and the
    [k]-th of the units B, KB, MB, GB, TB, where [k] counts the powers of
    1024 that fit in [n] (at most four). *)
Theorem format_size_binary_units :
  format_size (Some 500%Z) = codes "500.00 B"
  /\ format_size (Some 2048%Z) = codes "2.00 KB"
  /\ format_size (Some 1572864%Z) = codes "1.50 MB"
  /\ format_size None = codes "Unknown size"
  /\ forall n : Z, (0 <= n < 2 ^ 53)%Z ->
       let k := unit_index n in
       let scaled := divided k (inject_Z n) in
       exists whole d1 d2 unit,
         format_size (Some n) = whole ++ [46; d1; d2] ++ [32] ++ unit
         /\ whole <> []
         /\ forallb is_ascii_digit (whole ++ [d1; d2]) = true
         /\ nth_error units k = Some unit
         /\ whole ++ [46; d1; d2] = format_2f scaled
         /\ Qnum scaled = n
         /\ Zpos (Qden scaled) = (1024 ^ Z.of_nat k)%Z
         /\ (k = 4%nat \/ n < 1024 ^ Z.of_nat (S k))%Z
         /\ (k = 0%nat \/ 1024 ^ Z.of_nat k <= n)%Z.
Proof.
  repeat (split; [reflexivity|]).
  intros n Hn k scaled.
  destruct (divided_value k n 1) as [E1 E2].
  fold (inject_Z n) in E1, E2. fold scaled in E1, E2.
  destruct (@format_2f_shape scaled) as [whole [d1 [d2 [F [NE D]]]]];
    [rewrite E1; lia|].
  assert (U : exists unit, nth_error units k = Some unit
                           /\ nth k units [] = unit).
  { subst k. unfold unit_index.
    repeat match goal with |- context [if ?b then _ else _] => destruct b end;
      eexists; split; reflexivity. }
  destruct U as [unit [U1 U2]].
  exists whole, d1, d2, unit.
  split.
  { rewrite format_size_closed_form. fold k. fold scaled.
    rewrite F, U2, <- app_assoc. reflexivity. }
  repeat (split; [first [assumption | now symmetry | lia]|]).
  subst k. unfold unit_index.
  destruct (Z.ltb_spec n 1024); [split; [right|left]; simpl; lia|].
  destruct (Z.ltb_spec n (1024 ^ 2)); [split; right; simpl in *; lia|].
  destruct (Z.ltb_spec n (1024 ^ 3)); [split; right; simpl in *; lia|].
  destruct (Z.ltb_spec n (1024 ^ 4)); [split; right; simpl in *; lia|].
  split; [left; reflexivity | right; simpl in *; lia].
Qed.

(** ** Equality tests *)

Lemma str_eqb_eq (a b : str) : str_eqb a b = true <-> a = b.
Proof.
  revert b. induction a as [|x a IH]; intros [|y b]; simpl;
    try (split; [discriminate | congruence]); [tauto|].
  rewrite andb_true_iff, N.eqb_eq, IH.
  split; [intros [-> ->]; reflexivity | intros E; injection E; auto].
Qed.

Lemma opt_str_eqb_true (x : option str) (s : str) :
  opt_str_eqb x s = true <-> x = Some s.
Proof.
  destruct x as [v|]; simpl; [|split; discriminate].
  rewrite str_eqb_eq. split; congruence.
Qed.

Lemma opt_Z_eqb_true (x : option Z) (n : Z) :
  opt_Z_eqb x n = true <-> x = Some n.
Proof.
  destruct x as [v|]; simpl; [|split; discriminate].
  rewrite Z.eqb_eq. split; congruence.
Qed.

Lemma vcodec_not_none_iff (f : Format) :
  vcodec_not_none f = true <-> vcodec f <> Some (codes "none").
Proof.
  unfold vcodec_not_none. rewrite negb_true_iff.
  rewrite <- opt_str_eqb_true.
  destruct (opt_str_eqb (vcodec f) (codes "none")); split;
    congruence.
Qed.

Lemma acceptableb_iff (resolution : str) (n : Z) (f : Format) :
  acceptableb resolution n f = true <-> acceptable resolution n f.
Proof.
  unfold acceptableb, acceptable.
  now rewrite andb_true_iff, orb_true_iff, vcodec_not_none_iff,
    opt_str_eqb_true, opt_Z_eqb_true.
Qed.

Lemma acceptableb_false (resolution : str) (n : Z) (f : Format) :
  acceptableb resolution n f = false <-> ~ acceptable resolution n f.
Proof.
  rewrite <- acceptableb_iff.
  destruct (acceptableb resolution n f); split; congruence.
Qed.

(** ** The first element that passes a filter *)

Lemma filter_head {A} (p : A -> bool) (l : list A) (x : A) (r : list A) :
  filter p l = x :: r ->
  exists pre post,
    l = pre ++ x :: post
    /\ p x = true
    /\ Forall (fun y => p y = false) pre.
Proof.
  induction l as [|y l IH]; simpl; [discriminate|].
  destruct (p y) eqn:Py.
  - intros E. injection E as -> _.
    exists [], l. repeat split; [exact Py | constructor].
  - intros E. destruct (IH E) as [pre [post [-> [Px F]]]].
    exists (y :: pre), post. repeat split; [exact Px | now constructor].
Qed.

Lemma filter_first {A} (p : A -> bool) (pre post : list A) (x : A) :
  p x = true ->
  Forall (fun y => p y = false) pre ->
  filter p (pre ++ x :: post) = x :: filter p post.
Proof.
  intros Px F. induction F as [|y pre Py F IH]; simpl.
  - now rewrite Px.
  - now rewrite Py.
Qed.

Lemma filter_nil {A} (p : A -> bool) (l : list A) :
  filter p l = [] <-> forall x, In x l -> p x = false.
Proof.
  induction l as [|y l IH]; simpl; [tauto|].
  destruct (p y) eqn:Py.
  - split; [discriminate|]. intros H.
    specialize (H y (or_introl eq_refl)). congruence.
  - rewrite IH. split.
    + intros H x [<-|Hx]; auto.
    + intros H x Hx. apply H. now right.
Qed.

(** ** [int] on digit strings *)

Lemma scan_digits_all (ds : str) (digits : nat) (acc : Z) :
  forallb is_ascii_digit ds = true ->
  scan_digits ds false digits acc
  = Some ((digits + List.length ds)%nat,
          fold_left (fun a c => (10 * a + Z.of_N (c - 48))%Z) ds acc,
          []).
Proof.
  revert digits acc. induction ds as [|c ds IH]; intros digits acc H.
  - simpl. now rewrite Nat.add_0_r.
  - simpl in H. apply andb_true_iff in H as [Hc H].
    simpl. rewrite Hc, IH by exact H.
    now rewrite Nat.add_succ_r.
Qed.

Lemma ascii_digit_facts (c : N) :
  is_ascii_digit c = true ->
  (c <? 128) = true /\ is_c_space c = false
  /\ (c =? 43) = false /\ (c =? 45) = false /\ (c =? 95) = false
  /\ (c =? 112) = false.
Proof.
  unfold is_ascii_digit, is_c_space.
  rewrite andb_true_iff, !N.leb_le. intros [H1 H2].
  repeat split;
    rewrite ?N.ltb_lt, ?orb_false_iff, ?andb_false_iff, ?N.leb_gt, ?N.eqb_neq;
    try lia.
Qed.

Section IntParser.
Context {py : PythonRuntime}.

Lemma py_int_digits (ds : str) :
  ds <> [] ->
  forallb is_ascii_digit ds = true ->
  exceeds_digit_limit (List.length ds) = false ->
  py_int ds = Some (digits_value ds).
Proof.
  intros NE D L. unfold py_int, transform_decimal_and_space.
  assert (A : forallb (fun c => c <? 128) ds = true).
  { apply forallb_forall. intros c Hc.
    rewrite forallb_forall in D. now apply ascii_digit_facts, D. }
  rewrite A. unfold PyLong_FromString.
  destruct ds as [|c ds]; [congruence|].
  pose proof D as D'. simpl in D'. apply andb_true_iff in D' as [Dc _].
  destruct (ascii_digit_facts _ Dc) as [_ [S [P [Mi [U _]]]]].
  cbn [dropwhile]. rewrite S. cbn [starts_with]. rewrite P, Mi. cbn [starts_with]. rewrite U.
  rewrite scan_digits_all by exact D.
  cbn [Nat.add]. rewrite L. reflexivity.
Qed.

Lemma replace_p_digits (ds : str) :
  forallb is_ascii_digit ds = true ->
  replace_char_empty 112 (ds ++ codes "p") = ds.
Proof.
  intros D. unfold replace_char_empty.
  rewrite filter_app. simpl. rewrite app_nil_r.
  apply filter_fixed. intros c Hc.
  rewrite forallb_forall in D.
  destruct (ascii_digit_facts _ (D c Hc)) as [_ [_ [_ [_ [_ E]]]]].
  now rewrite E.
Qed.

Lemma int_label_parse (resolution : str) (n : Z) :
  int_label resolution n ->
  py_int (replace_char_empty 112 resolution) = Some n.
Proof.
  intros [ds [NE [D [L [-> ->]]]]].
  rewrite replace_p_digits by exact D.
  now apply py_int_digits.
Qed.

(** ** The comprehension of [download_video] *)

Lemma format_matches_parsed (resolution : str) (n : Z) (f : Format) :
  py_int (replace_char_empty 112 resolution) = Some n ->
  format_matches resolution f = Ok (acceptableb resolution n f).
Proof.
  intros P. unfold format_matches, acceptableb. rewrite P.
  destruct (vcodec_not_none f); [|reflexivity].
  destruct (opt_str_eqb (format_note f) resolution); reflexivity.
Qed.

Lemma filter_formats_parsed (resolution : str) (n : Z) (formats : list Format) :
  py_int (replace_char_empty 112 resolution) = Some n ->
  filter_formats resolution formats
  = Ok (filter (acceptableb resolution n) formats).
Proof.
  intros P. induction formats as [|f rest IH]; [reflexivity|].
  cbn [filter_formats filter].
  rewrite (format_matches_parsed resolution f P), IH. reflexivity.
Qed.

End IntParser.

(** ** Running the handlers *)

Lemma any_exists_run (download_path title : str) (exts : list str) (w : World) :
  any_exists download_path title exts w
  = (Ok (existsb
           (fun ext =>
              existsb (str_eqb (path_join download_path (title ++ [46] ++ ext)))
                      (paths w))
           exts), w).
Proof.
  induction exts as [|ext rest IH]; [reflexivity|].
  cbn [any_exists existsb]. unfold bind, path_exists.
  destruct (existsb _ (paths w)); [reflexivity | exact IH].
Qed.

Lemma after_makedirs_cwd (w : World) : cwd (after_makedirs w) = cwd w.
Proof.
  unfold after_makedirs, create_download_path, bind, makedirs, ret. simpl.
  now destruct (existsb _ (paths w)).
Qed.

Lemma after_makedirs_calls (w : World) : calls (after_makedirs w) = calls w.
Proof.
  unfold after_makedirs, create_download_path, bind, makedirs, ret. simpl.
  now destruct (existsb _ (paths w)).
Qed.

Lemma after_makedirs_paths (w : World) :
  paths (after_makedirs w)
  = if existsb (str_eqb (download_dir w)) (paths w) then paths w
    else paths w ++ [download_dir w].
Proof.
  unfold after_makedirs, create_download_path, bind, makedirs, ret. simpl.
  fold (download_dir w).
  now destruct (existsb _ (paths w)).
Qed.

Lemma create_download_path_run (w : World) :
  create_download_path w = (Ok (download_dir w), after_makedirs w).
Proof.
  unfold after_makedirs, create_download_path, bind, makedirs, ret.
  reflexivity.
Qed.

Section HandlerRuns.
Context {py : PythonRuntime} {ydl : YoutubeDL}.

Lemma get_video_info_run (url : str) (w : World) :
  get_video_info url w
  = (match extract_info w url with
     | inl message =>
         Raise (HTTPException 400
                  (codes "Failed to fetch video info: " ++ message))
     | inr info => Ok info
     end,
     {| cwd := cwd w; paths := paths w; calls := calls w ++ [ExtractInfo url] |}).
Proof.
  unfold get_video_info, try_except, call_extract_info, raise.
  destruct (extract_info w url); reflexivity.
Qed.

(** What [download_video] does, step by step. *)
Lemma download_video_run (request : DownloadRequest) (w : World) :
  let url := request_url request in
  let w2 := after_probe url w in
  download_video request w =
  match extract_info (after_makedirs w) url with
  | inl message =>
      (Raise (HTTPException 400
                (codes "Failed to fetch video info: " ++ message)), w2)
  | inr info =>
      match select_format (request_resolution request)
                          (get_formats_or_empty info) with
      | Raise e => (Raise e, w2)
      | Ok selected =>
          let title := sanitize_filename (get_title_or_video info) in
          if title_exists (download_dir w) title w2
          then (Ok exists_response, w2)
          else
            let opts := make_ydl_opts selected (download_dir w) in
            (match fst (download w2 opts url) with
             | Some message =>
                 Raise (HTTPException 500
                          (codes "Download failed: " ++ message))
             | None =>
                 Ok (FileResponse
                       (path_join (download_dir w) (title ++ codes ".mp4"))
                       (codes "video/mp4") (title ++ codes ".mp4"))
             end,
             after_download opts url w2)
      end
  end.
Proof.
  intros url w2. unfold download_video.
  unfold bind at 1. rewrite create_download_path_run.
  unfold bind at 1. rewrite get_video_info_run.
  fold url. fold (after_probe url w). fold w2.
  destruct (extract_info (after_makedirs w) url) as [message|info];
    [reflexivity|].
  unfold bind at 1, lift.
  destruct (select_format _ _) as [selected|e]; [|reflexivity].
  unfold bind at 1. rewrite any_exists_run.
  fold (title_exists (download_dir w)
    (sanitize_filename (get_title_or_video info)) w2).
  destruct (title_exists _ _ w2); [reflexivity|].
  unfold try_except, bind, call_download, after_download, ret, raise.
  destruct (download w2 _ url) as [[message|] paths']; reflexivity.
Qed.

End HandlerRuns.

Section Selector.
Context {py : PythonRuntime} {ydl : YoutubeDL}.

Lemma select_format_parsed (resolution : str) (n : Z) (formats : list Format) :
  py_int (replace_char_empty 112 resolution) = Some n ->
  select_format resolution formats
  = match filter (acceptableb resolution n) formats with
    | [] => Raise (HTTPException 404 (codes "No matching format found"))
    | selected :: _ => Ok selected
    end.
Proof.
  intros P. unfold select_format.
  now rewrite (filter_formats_parsed resolution formats P).
Qed.

(** C2.  For a requested label ["<int>p"] that denotes [n], the format
    selector returns a rendition [f] exactly when [f] is the first entry of
    the list, in its order, whose video codec is not ["none"] and whose
    label equals the request or whose height equals [n]; and when no entry
    is of this kind the selector, and with it [POST /download], fails with
    404. *)
Theorem select_format_first_match
    (resolution : str) (n : Z) (formats : list Format) :
  int_label resolution n ->
  (forall f,
     select_format resolution formats = Ok f <->
     exists pre post,
       formats = pre ++ f :: post
       /\ acceptable resolution n f
       /\ Forall (fun g => ~ acceptable resolution n g) pre)
  /\ ((forall f, In f formats -> ~ acceptable resolution n f) ->
      select_format resolution formats
      = Raise (HTTPException 404 (codes "No matching format found"))
      /\ forall request w info,
           request_resolution request = resolution ->
           extract_info (after_makedirs w) (request_url request) = inr info ->
           get_formats_or_empty info = formats ->
           fst (download_video request w)
           = Raise (HTTPException 404 (codes "No matching format found"))).
Proof.
  intros L. pose proof (int_label_parse L) as P.
  rewrite (select_format_parsed resolution formats P).
  split.
  - intros f. split.
    + destruct (filter _ formats) as [|x r] eqn:E; [discriminate|].
      intros H. injection H as ->.
      destruct (filter_head _ _ E) as [pre [post [-> [A F]]]].
      exists pre, post. split; [reflexivity|]. split.
      * now apply acceptableb_iff.
      * eapply Forall_impl; [|exact F].
        intros g. apply acceptableb_false.
    + intros [pre [post [-> [A F]]]].
      rewrite filter_first; [reflexivity | now apply acceptableb_iff |].
      eapply Forall_impl; [|exact F].
      intros g. apply acceptableb_false.
  - intros H.
    assert (E : filter (acceptableb resolution n) formats = []).
    { apply filter_nil. intros x Hx. apply acceptableb_false. now apply H. }
    rewrite E. split; [reflexivity|].
    intros request w info <- Hp Hf.
    rewrite download_video_run. cbv zeta. rewrite Hp, Hf.
    rewrite (select_format_parsed _ formats P), E. reflexivity.
Qed.

End Selector.

Section SelectorSoundness.
Context {py : PythonRuntime}.

Lemma format_matches_true (resolution : str) (f : Format) :
  format_matches resolution f = Ok true ->
  vcodec f <> Some (codes "none")
  /\ (format_note f = Some resolution
      \/ exists n, py_int (replace_char_empty 112 resolution) = Some n
                   /\ height f = Some n).
Proof.
  unfold format_matches.
  destruct (vcodec_not_none f) eqn:V; [|discriminate].
  apply vcodec_not_none_iff in V. intros H. split; [exact V|].
  destruct (opt_str_eqb (format_note f) resolution) eqn:E.
  - left. now apply opt_str_eqb_true.
  - right. destruct (py_int _) as [n|]; [|discriminate].
    exists n. split; [reflexivity|].
    apply opt_Z_eqb_true. congruence.
Qed.

Lemma filter_formats_sound (resolution : str) (formats filtered : list Format) :
  filter_formats resolution formats = Ok filtered ->
  forall f, In f filtered ->
            In f formats /\ format_matches resolution f = Ok true.
Proof.
  revert filtered. induction formats as [|g rest IH]; intros filtered.
  - simpl. intros E. injection E as <-. intros f [].
  - cbn [filter_formats].
    destruct (format_matches resolution g) as [b|e] eqn:Mg; [|discriminate].
    destruct (filter_formats resolution rest) as [l|e]; [|discriminate].
    intros E. injection E as <-. intros f Hf.
    destruct b.
    + destruct Hf as [<-|Hf].
      * split; [now left | exact Mg].
      * destruct (IH l eq_refl f Hf). split; [now right | assumption].
    + destruct (IH l eq_refl f Hf). split; [now right | assumption].
Qed.

Lemma select_format_sound (resolution : str) (formats : list Format) (f : Format) :
  select_format resolution formats = Ok f ->
  In f formats /\ format_matches resolution f = Ok true.
Proof.
  unfold select_format.
  destruct (filter_formats resolution formats) as [[|x r]|e] eqn:E;
    try discriminate.
  intros H. injection H as ->.
  apply (filter_formats_sound _ _ E). now left.
Qed.

(** C6, as the code has it.  A rendition is selected only if it is in the
    probed list, its video codec field is not the string ["none"], and its
    label equals the request or its height equals the number parsed from the
    request.  A missing video codec field is no obstacle: a rendition
    without one, whose label is the requested one, is selected. *)
Theorem selected_vcodec_not_none :
  (forall (resolution : str) (formats : list Format) (f : Format),
     select_format resolution formats = Ok f ->
     In f formats
     /\ vcodec f <> Some (codes "none")
     /\ (format_note f = Some resolution
         \/ exists n, py_int (replace_char_empty 112 resolution) = Some n
                      /\ height f = Some n))
  /\ (forall (resolution : str) (f : Format),
        vcodec f = None ->
        format_note f = Some resolution ->
        select_format resolution [f] = Ok f).
Proof.
  split.
  - intros resolution formats f H.
    destruct (select_format_sound _ _ H) as [I M].
    split; [exact I | now apply format_matches_true].
  - intros resolution f V Nt.
    unfold select_format. cbn [filter_formats].
    unfold format_matches, vcodec_not_none. rewrite V. simpl.
    apply opt_str_eqb_true in Nt. now rewrite Nt.
Qed.

(** ** When the comprehension calls [int] on a string it rejects *)





Lemma format_matches_raise (resolution : str) (f : Format) (e : Exception) :
  format_matches resolution f = Raise e ->
  e = ValueError (replace_char_empty 112 resolution).
Proof.
  unfold format_matches.
  destruct (vcodec_not_none f); [|discriminate].
  destruct (opt_str_eqb _ _); [discriminate|].
  destruct (py_int _); [discriminate|]. now intros [= <-].
Qed.

Lemma filter_formats_raise (resolution : str) (formats : list Format)
    (e : Exception) :
  filter_formats resolution formats = Raise e ->
  e = ValueError (replace_char_empty 112 resolution).
Proof.
  induction formats as [|f rest IH]; cbn [filter_formats]; [discriminate|].
  destruct (format_matches resolution f) as [b|e'] eqn:M.
  - destruct (filter_formats resolution rest) as [l|e']; [discriminate|].
    intros [= <-]. now apply IH.
  - intros [= <-]. eapply format_matches_raise. exact M.
Qed.

Lemma select_format_raise (resolution : str) (formats : list Format)
    (e : Exception) :
  select_format resolution formats = Raise e ->
  e = HTTPException 404 (codes "No matching format found")
  \/ e = ValueError (replace_char_empty 112 resolution).
Proof.
  unfold select_format.
  destruct (filter_formats resolution formats) as [[|x r]|e'] eqn:F.
  - intros [= <-]. now left.
  - discriminate.
  - intros [= <-]. right. eapply filter_formats_raise. exact F.
Qed.


End SelectorSoundness.

Section HandlerProperties.
Context {py : PythonRuntime} {ydl : YoutubeDL}.





(** C3, as the code has it.  When the probe succeeds, the selector finds a
    rendition, and one of [T.mp4], [T.mkv], [T.webm] exists in the download
    directory for the sanitized title [T], the handler answers
    [{status: "exists", ...}] with status 200; the extractor has been asked
    to probe and nothing else, and the paths that exist are those the
    handler found, plus the download directory if it had to be created. *)
Theorem existing_file_short_circuits
    (request : DownloadRequest) (w : World) (info : InfoDict)
    (selected : Format) (ext : str) :
  let url := request_url request in
  let title := sanitize_filename (get_title_or_video info) in
  extract_info (after_makedirs w) url = inr info ->
  select_format (request_resolution request) (get_formats_or_empty info)
  = Ok selected ->
  In ext video_extensions ->
  In (path_join (download_dir w) (title ++ [46] ++ ext)) (paths w) ->
  let '(result, w') := download_video request w in
  result = Ok exists_response
  /\ exists_response
     = JSONResponse [(codes "status", codes "exists");
                     (codes "message", codes "Video already downloaded.")] 200
  /\ calls w' = calls w ++ [ExtractInfo url]
  /\ (paths w' = paths w \/ paths w' = paths w ++ [download_dir w]).
Proof.
  intros url title Hp Hs He Hin.
  rewrite download_video_run. cbv zeta. fold url. rewrite Hp, Hs.
  fold title.
  assert (P : paths (after_probe url w) = paths w
              \/ paths (after_probe url w) = paths w ++ [download_dir w]).
  { unfold after_probe. cbn [paths]. rewrite after_makedirs_paths.
    destruct (existsb _ (paths w)); auto. }
  assert (X : title_exists (download_dir w) title (after_probe url w) = true).
  { unfold title_exists. apply existsb_exists. exists ext.
    split; [exact He|]. apply existsb_exists.
    exists (path_join (download_dir w) (title ++ [46] ++ ext)).
    split; [|now apply str_eqb_eq].
    destruct P as [-> | ->]; [exact Hin|].
    apply in_or_app. now left. }
  rewrite X.
  assert (C : calls (after_probe url w) = calls w ++ [ExtractInfo url]).
  { unfold after_probe. cbn [calls]. now rewrite after_makedirs_calls. }
  repeat split; assumption.
Qed.

(** C5, as the code has it.  When the handler reaches the download step (a
    rendition was selected and no file with the sanitized title exists), it
    asks the extractor for one download, with format
    ["<format_id>+bestaudio/best"] for the selected rendition and merge
    output format [mp4].  If the download returns, the handler answers with
    the file [<download_dir>/<sanitized title>.mp4] as [video/mp4]; if it
    raises, the handler fails with status 500. *)
Theorem download_step
    (request : DownloadRequest) (w : World) (info : InfoDict)
    (selected : Format) :
  let url := request_url request in
  let title := sanitize_filename (get_title_or_video info) in
  let opts := make_ydl_opts selected (download_dir w) in
  let w2 := after_probe url w in
  extract_info (after_makedirs w) url = inr info ->
  select_format (request_resolution request) (get_formats_or_empty info)
  = Ok selected ->
  title_exists (download_dir w) title w2 = false ->
  calls (snd (download_video request w))
  = calls w ++ [ExtractInfo url; Download opts url]
  /\ format opts = format_id selected ++ codes "+bestaudio/best"
  /\ merge_output_format opts = codes "mp4"
  /\ (fst (download w2 opts url) = None ->
      fst (download_video request w)
      = Ok (FileResponse (path_join (download_dir w) (title ++ codes ".mp4"))
                         (codes "video/mp4") (title ++ codes ".mp4")))
  /\ (forall message,
        fst (download w2 opts url) = Some message ->
        fst (download_video request w)
        = Raise (HTTPException 500 (codes "Download failed: " ++ message))).
Proof.
  intros url title opts w2 Hp Hs Hx.
  rewrite download_video_run. cbv zeta. fold url. rewrite Hp, Hs.
  fold title. fold w2. rewrite Hx. fold opts. cbn [fst snd].
  split; [|split; [reflexivity | split; [reflexivity | split]]].
  - unfold after_download, w2, after_probe. cbn [calls].
    rewrite after_makedirs_calls, <- app_assoc. reflexivity.
  - now intros ->.
  - now intros message ->.
Qed.

(** The output template handed to the extractor names the extractor's own
    [title] field; it never contains the sanitized title computed by the
    handler, which cannot hold a percent sign. *)
Lemma outtmpl_is_extractor_template (selected : Format) (download_path : str) :
  outtmpl (make_ydl_opts selected download_path)
  = path_join download_path (codes "%(title)s.%(ext)s").
Proof. reflexivity. Qed.

Lemma sanitized_title_has_no_percent (name : str) :
  ~ In 37 (sanitize_filename name).
Proof.
  intros H. apply sanitize_filename_kept in H.
  unfold keep_char, isalnum in H. simpl in H. discriminate.
Qed.

(** ** [GET /info] *)

(** Whatever the probe returns, [get_formats] raises [HTTPException] with
    status 500: every [raise] of its body is inside the [try], and the body
    never reaches its [return]. *)
Lemma get_formats_run (url : str) (w : World) :
  get_formats url w
  = (Raise (HTTPException 500
       (codes "Failed to fetch video info: "
        ++ match extract_info w url with
           | inl message =>
               codes "400: Failed to fetch video info: " ++ message
           | inr _ => codes "404: No valid video formats found."
           end)),
     {| cwd := cwd w; paths := paths w; calls := calls w ++ [ExtractInfo url] |}).
Proof.
  unfold get_formats, try_except, bind. rewrite get_video_info_run.
  destruct (extract_info w url) as [message|info]; [reflexivity|].
  destruct (is_empty (get_formats_or_empty info)); reflexivity.
Qed.

(** C1 fails on the code.  For a probe that returns a non-empty format
    list, [GET /info] does not return a listing: the handler tests the list
    it has just created empty, raises 404, and its own [except Exception]
    turns that into status 500. *)
Theorem get_formats_nonempty_raises_500
    (url : str) (w : World) (info : InfoDict) :
  extract_info w url = inr info ->
  get_formats_or_empty info <> [] ->
  fst (get_formats url w)
  = Raise (HTTPException 500
      (codes "Failed to fetch video info: 404: No valid video formats found."))
  /\ forall title available_formats,
       fst (get_formats url w) <> Ok (InfoBody title available_formats).
Proof.
  intros Hp _. rewrite get_formats_run, Hp. cbn [fst].
  split; [reflexivity | discriminate].
Qed.

(** C4 fails on the code.  For a probe that returns an empty format list,
    the handler raises 404 inside its [try]; the [except Exception] around
    it catches that and raises status 500. *)
Theorem get_formats_empty_raises_500
    (url : str) (w : World) (info : InfoDict) :
  extract_info w url = inr info ->
  get_formats_or_empty info = [] ->
  fst (get_formats url w)
  = Raise (HTTPException 500
      (codes "Failed to fetch video info: 404: No valid video formats found."))
  /\ forall detail, fst (get_formats url w) <> Raise (HTTPException 404 detail).
Proof.
  intros Hp _. rewrite get_formats_run, Hp. cbn [fst].
  split; [reflexivity | discriminate].
Qed.

(** The loop that [get_formats] never reaches would list the renditions
    that pass the codec test, in their order. *)
Lemma available_formats_loop_spec (formats : list Format)
    (filtered_formats : list FormatEntry) :
  available_formats_loop formats filtered_formats
  = filtered_formats
    ++ map (fun f =>
              {| entry_format_id := format_id f;
                 entry_resolution := listing_resolution f;
                 entry_filesize := format_size (listing_filesize f);
                 entry_ext := ext f |})
           (filter vcodec_not_none formats).
Proof.
  revert filtered_formats.
  induction formats as [|f rest IH]; intros acc; simpl.
  - now rewrite app_nil_r.
  - destruct (vcodec_not_none f); rewrite IH; [|reflexivity].
    now rewrite <- app_assoc.
Qed.

End HandlerProperties.

(* ===================================================================== *)
(** * The statements at the sample data *)
(* ===================================================================== *)

Lemma format_size_binary_units_witness :
  (0 <= 2048 < 2 ^ 53)%Z
  /\ exists whole d1 d2 unit,
       format_size (Some 2048%Z) = whole ++ [46; d1; d2] ++ [32] ++ unit
       /\ nth_error units 1 = Some unit.
Proof.
  assert (R : (0 <= 2048 < 2 ^ 53)%Z) by (split; [discriminate | reflexivity]).
  split; [exact R|].
  destruct (proj2 (proj2 (proj2 (proj2 format_size_binary_units))) 2048%Z R)
    as [whole [d1 [d2 [unit [E [_ [_ [U _]]]]]]]].
  exists whole, d1, d2, unit. split; [exact E | exact U].
Defined.

Lemma sanitize_filename_keeps_and_trims_witness :
  sanitize_filename (py:=ascii_runtime) (codes "  a-b?  ") = codes "a-b"
  /\ isspace 97 = false.
Proof.
  split; [reflexivity|].
  exact (proj1 (proj2 (proj1 (sanitize_filename_keeps_and_trims
                                (py:=ascii_runtime)) (codes "  a-b?  ")))
           97 (codes "-b") eq_refl).
Defined.

Lemma select_format_first_match_witness :
  int_label (py:=ascii_runtime) (codes "720p") 720%Z
  /\ select_format (py:=ascii_runtime) (codes "720p")
       [sample_audio; sample_video] = Ok sample_video.
Proof.
  assert (L : int_label (py:=ascii_runtime) (codes "720p") 720%Z).
  { exists (codes "720"). repeat split; try reflexivity. discriminate. }
  split; [exact L|].
  apply (proj1 (@select_format_first_match ascii_runtime
                  (stub_ydl sample_info None []) (codes "720p") 720%Z
                  [sample_audio; sample_video] L)).
  exists [sample_audio], []. split; [reflexivity|]. split.
  - split; [discriminate | left; reflexivity].
  - constructor; [|constructor]. intros [V _]. now apply V.
Defined.

Lemma selected_vcodec_not_none_witness :
  select_format (py:=ascii_runtime) (codes "720p")
    [sample_audio; sample_video] = Ok sample_video
  /\ vcodec sample_video <> Some (codes "none").
Proof.
  split; [reflexivity|].
  exact (proj1 (proj2 (proj1 (selected_vcodec_not_none (py:=ascii_runtime))
                         (codes "720p") [sample_audio; sample_video]
                         sample_video eq_refl))).
Defined.

(** C6 as stated fails: an entry without a [vcodec] key is selected. *)
Lemma absent_vcodec_is_selected :
  vcodec sample_no_vcodec = None
  /\ select_format (py:=ascii_runtime) (codes "360p") [sample_no_vcodec]
     = Ok sample_no_vcodec.
Proof. split; reflexivity. Qed.

Lemma existing_file_short_circuits_witness :
  In (codes "/srv/app/downloads/My Video Part 1.mp4")
     (paths sample_world_cached)
  /\ download_video (py:=ascii_runtime) (ydl:=stub_ydl sample_info None [])
       sample_request sample_world_cached
     = (Ok exists_response,
        {| cwd := cwd sample_world_cached;
           paths := paths sample_world_cached;
           calls := [ExtractInfo sample_url] |}).
Proof.
  split; [simpl; tauto|].
  pose proof (@existing_file_short_circuits ascii_runtime
                (stub_ydl sample_info None []) sample_request
                sample_world_cached sample_info sample_video (codes "mp4")
                eq_refl eq_refl (or_introl eq_refl)
                (or_intror (or_intror (or_introl eq_refl)))) as H.
  destruct (download_video sample_request sample_world_cached)
    as [result w'] eqn:E.
  destruct H as [-> _].
  rewrite <- E. reflexivity.
Defined.

(** C3 as stated fails: the file of the sanitized title exists, but no
    rendition matches the request, and the handler answers 404. *)
Lemma existing_file_without_match_is_404 :
  sanitize_filename (py:=ascii_runtime) (get_title_or_video sample_info_no_formats)
  = codes "My Video Part 1"
  /\ In (codes "/srv/app/downloads/My Video Part 1.mp4")
        (paths sample_world_cached)
  /\ fst (download_video (py:=ascii_runtime)
            (ydl:=stub_ydl sample_info_no_formats None [])
            sample_request sample_world_cached)
     <> Ok exists_response
  /\ fst (download_video (py:=ascii_runtime)
            (ydl:=stub_ydl sample_info_no_formats None [])
            sample_request sample_world_cached)
     = Raise (HTTPException 404 (codes "No matching format found")).
Proof.
  split; [reflexivity | split; [simpl; tauto | split; [discriminate|]]].
  reflexivity.
Qed.

Lemma download_step_witness :
  fst (download_video (py:=ascii_runtime) (ydl:=stub_ydl sample_info None [])
         sample_request sample_world)
  = Ok (FileResponse (codes "/srv/app/downloads/My Video Part 1.mp4")
          (codes "video/mp4") (codes "My Video Part 1.mp4")).
Proof.
  exact (proj1 (proj2 (proj2 (proj2
           (@download_step ascii_runtime (stub_ydl sample_info None [])
              sample_request sample_world sample_info sample_video
              eq_refl eq_refl eq_refl)))) eq_refl).
Defined.

(** C5 as stated fails: the download step is reached, the extractor raises,
    and the handler answers 500 instead of the file. *)
Lemma failed_download_is_500 :
  let ydl := stub_ydl sample_info (Some (codes "unavailable")) [] in
  let run := download_video (py:=ascii_runtime) (ydl:=ydl)
               sample_request sample_world in
  calls (snd run)
  = [ExtractInfo sample_url;
     Download (make_ydl_opts sample_video (codes "/srv/app/downloads"))
              sample_url]
  /\ fst run
     = Raise (HTTPException 500 (codes "Download failed: unavailable"))
  /\ forall path media_type filename,
       fst run <> Ok (FileResponse path media_type filename).
Proof. split; [reflexivity | split; [reflexivity | discriminate]]. Qed.



Lemma get_formats_nonempty_raises_500_witness :
  get_formats_or_empty sample_info <> []
  /\ fst (get_formats (ydl:=stub_ydl sample_info None []) sample_url sample_world)
     = Raise (HTTPException 500
         (codes "Failed to fetch video info: 404: No valid video formats found.")).
Proof.
  assert (N : get_formats_or_empty sample_info <> []) by discriminate.
  split; [exact N|].
  exact (proj1 (@get_formats_nonempty_raises_500
                  (stub_ydl sample_info None []) sample_url sample_world
                  sample_info eq_refl N)).
Defined.

Lemma get_formats_empty_raises_500_witness :
  get_formats_or_empty sample_info_no_formats = []
  /\ fst (get_formats (ydl:=stub_ydl sample_info_no_formats None [])
            sample_url sample_world)
     = Raise (HTTPException 500
         (codes "Failed to fetch video info: 404: No valid video formats found.")).
Proof.
  split; [reflexivity|].
  exact (proj1 (@get_formats_empty_raises_500
                  (stub_ydl sample_info_no_formats None []) sample_url
                  sample_world sample_info_no_formats eq_refl eq_refl)).
Defined.

(* ===================================================================== *)
(** * Further properties of the helpers *)
(* ===================================================================== *)

(** ** [sanitize_filename] *)

Lemma strip_nil_iff (s : str) :
  strip s = [] <-> forall c, In c s -> isspace c = true.
Proof.
  split.
  - intros E c Hc.
    destruct (strip_decompose s) as [pre [post [D [Fpre Fpost]]]].
    rewrite E in D. simpl in D. rewrite D in Hc.
    rewrite Forall_forall in Fpre, Fpost.
    apply in_app_or in Hc as [Hc|Hc]; auto.
  - intros H. unfold strip, lstrip.
    assert (D : dropwhile isspace s = []).
    { induction s as [|c s IH]; [reflexivity|]. simpl.
      rewrite (H c (or_introl eq_refl)). apply IH.
      intros x Hx. apply H. now right. }
    now rewrite D.
Qed.

Lemma rev_cons_last {A} (l r : list A) (x : A) :
  rev l = x :: r -> l = rev r ++ [x].
Proof.
  intros E. apply (f_equal (@rev A)) in E.
  now rewrite rev_involutive in E.
Qed.

Section SanitizeFilenameMore.
Context {py : PythonRuntime}.

(** X1.  The strings that [sanitize_filename] leaves as they are: those made
    of kept characters only, with no whitespace character first or last. *)
Theorem sanitize_filename_fixed_point_iff (s : str) :
  sanitize_filename s = s <->
  (forall c, In c s -> keep_char c = true)
  /\ (forall c r, s = c :: r -> isspace c = false)
  /\ (forall c r, s = r ++ [c] -> isspace c = false).
Proof.
  split.
  - intros E. repeat split.
    + intros c Hc. rewrite <- E in Hc. now apply sanitize_filename_kept in Hc.
    + intros c r Hs. rewrite <- E in Hs. eapply strip_first. exact Hs.
    + intros c r Hs. rewrite <- E in Hs. eapply strip_last. exact Hs.
  - intros [K [F L]]. unfold sanitize_filename.
    rewrite (filter_fixed _ _ K). unfold strip, lstrip.
    rewrite dropwhile_fixed.
    + unfold rstrip. rewrite dropwhile_fixed; [apply rev_involutive|].
      destruct (rev s) as [|c r] eqn:E; [exact I|].
      exact (L c (rev r) (rev_cons_last _ E)).
    + destruct s as [|c r]; [exact I|]. exact (F c r eq_refl).
Qed.

(** X2.  A character outside the kept set has no influence on the result:
    two names that differ only by such a character get the same file
    name. *)
Theorem sanitize_filename_ignores_dropped (a b : str) (c : N) :
  keep_char c = false ->
  sanitize_filename (a ++ c :: b) = sanitize_filename (a ++ b).
Proof.
  intros H. unfold sanitize_filename.
  rewrite !filter_app. cbn [filter]. now rewrite H.
Qed.

(** X3.  The result is empty exactly when every character of the name is
    dropped by the filter or is whitespace. *)
Theorem sanitize_filename_empty_iff (name : str) :
  sanitize_filename name = [] <->
  forall c, In c name -> keep_char c = false \/ isspace c = true.
Proof.
  unfold sanitize_filename. rewrite strip_nil_iff. split.
  - intros H c Hc. destruct (keep_char c) eqn:K; [right | now left].
    apply H. apply filter_In. now split.
  - intros H c Hc. apply filter_In in Hc as [Hc K].
    destruct (H c Hc) as [K'|S]; [congruence | exact S].
Qed.

Lemma sanitized_head_not_slash (name rest : str) :
  starts_with 47 (sanitize_filename name ++ rest) = starts_with 47 rest
  \/ starts_with 47 (sanitize_filename name ++ rest) = false.
Proof.
  destruct (sanitize_filename name) as [|c r] eqn:E; [now left|].
  right. cbn [app starts_with].
  assert (K : keep_char c = true).
  { apply (sanitize_filename_kept name). rewrite E. now left. }
  destruct (N.eqb_spec c 47) as [->|]; [|reflexivity].
  discriminate K.
Qed.

End SanitizeFilenameMore.

(** ** [create_download_path] and the paths the handler builds *)

Lemma existsb_str_eqb_In (p : str) (l : list str) :
  existsb (str_eqb p) l = true <-> In p l.
Proof.
  rewrite existsb_exists. split.
  - intros [x [Hx E]]. apply str_eqb_eq in E. now subst.
  - intros H. exists p. split; [exact H | now apply str_eqb_eq].
Qed.

Lemma after_makedirs_keeps_paths (w : World) (p : str) :
  In p (paths w) -> In p (paths (after_makedirs w)).
Proof.
  intros Hp. rewrite after_makedirs_paths.
  destruct (existsb _ (paths w)); [exact Hp|].
  apply in_or_app. now left.
Qed.

Lemma download_dir_shape (w : World) :
  is_empty (download_dir w) = false /\ ends_with 47 (download_dir w) = false.
Proof.
  unfold download_dir, path_join. cbn [starts_with codes].
  assert (E : forall a : str,
            is_empty (a ++ codes "downloads") = false
            /\ ends_with 47 (a ++ codes "downloads") = false).
  { intros a. split; [now destruct a|].
    unfold ends_with. now rewrite rev_app_distr. }
  change (47 =? 100) with false. cbv iota.
  destruct (is_empty (cwd w) || ends_with 47 (cwd w)).
  - apply E.
  - change (cwd w ++ [47] ++ codes "downloads")
      with (cwd w ++ 47 :: codes "downloads").
    replace (cwd w ++ 47 :: codes "downloads")
      with ((cwd w ++ [47]) ++ codes "downloads")
      by (now rewrite <- app_assoc).
    apply E.
Qed.

Section DownloadPaths.
Context {py : PythonRuntime}.

(** X5.  The file the handler checks for and returns is a direct child of
    the download directory: the sanitized title holds no slash, so the path
    is [<download_dir>/<title>.<ext>] whatever the video's title is. *)
Theorem download_file_is_child_of_download_dir
    (w : World) (name ext : str) :
  In ext video_extensions ->
  let title := sanitize_filename name in
  path_join (download_dir w) (title ++ [46] ++ ext)
  = download_dir w ++ [47] ++ title ++ [46] ++ ext
  /\ ~ In 47 (title ++ [46] ++ ext).
Proof.
  intros He title. split.
  - unfold path_join.
    destruct (download_dir_shape w) as [-> ->]. cbn [orb].
    destruct (sanitized_head_not_slash name ([46] ++ ext)) as [E|E];
      fold title in E; rewrite E; reflexivity.
  - intros H. apply in_app_or in H as [H|H].
    + apply sanitize_filename_kept in H. discriminate H.
    + destruct H as [H|H]; [discriminate H|].
      simpl in He.
      destruct He as [<-|[<-|[<-|[]]]]; simpl in H;
        repeat (destruct H as [H|H]; [discriminate H|]); exact H.
Qed.

End DownloadPaths.

(** ** [format_size] *)

Lemma str_of_Z_neg (p : positive) :
  str_of_Z (Zneg p) = 45 :: str_of_Z (Zpos p).
Proof.
  unfold str_of_Z. simpl. unfold NilZero.string_of_uint.
  destruct (Pos.to_uint p); reflexivity.
Qed.

(** X6.  A byte count below 1024, zero and negative counts included, is
    printed in full, followed by [.00 B]. *)
Theorem format_size_bytes_exact (n : Z) :
  (- 2 ^ 53 < n < 1024)%Z ->
  format_size (Some n) = str_of_Z n ++ codes ".00 B".
Proof.
  intros [_ H]. unfold format_size, inject_Z. cbn [format_size_loop].
  rewrite Qlt_bool_1024.
  replace (n <? 1024 * 1)%Z with true by (symmetry; apply Z.ltb_lt; lia).
  unfold format_2f.
  assert (R : round_half_even (Qabs (n # 1) * 100) = (Z.abs n * 100)%Z).
  { unfold round_half_even, Qabs, Qmult. cbn [Qnum Qden Pos.mul].
    rewrite Z.mod_1_r, Z.div_1_r. reflexivity. }
  rewrite R, Z.div_mul, Z.mod_mul by lia.
  unfold Qle_bool. cbn [Qnum Qden]. rewrite !Z.mul_1_r.
  destruct n as [|p|p]; cbn [Z.leb Z.compare Z.abs app].
  - reflexivity.
  - rewrite <- app_assoc. reflexivity.
  - rewrite str_of_Z_neg. cbn [app]. rewrite <- app_assoc. reflexivity.
Qed.

Lemma format_2f_has_dot (x : Q) : In 46 (format_2f x).
Proof.
  unfold format_2f. apply in_or_app. right.
  apply in_or_app. right. now left.
Qed.

(** X7.  For [None] and for the counts that floats hold exactly,
    [format_size] answers ["Unknown size"] for [None] only: a count that is
    present, zero included, gives a string with a decimal point in it. *)
Theorem format_size_unknown_iff (size : option Z) :
  (forall n, size = Some n -> (- 2 ^ 53 < n < 2 ^ 53)%Z) ->
  (format_size size = codes "Unknown size" <-> size = None)
  /\ (forall n, size = Some n -> In 46 (format_size size)).
Proof.
  intros _.
  assert (D : forall n, In 46 (format_size (Some n))).
  { intros n. rewrite format_size_closed_form. apply in_or_app. left.
    apply format_2f_has_dot. }
  split; [split; [|now intros ->] | now intros n ->].
  destruct size as [n|]; [|reflexivity]. intros E. exfalso.
  specialize (D n). rewrite E in D. simpl in D.
  repeat (destruct D as [D|D]; [discriminate D|]). exact D.
Qed.

(* ===================================================================== *)
(** * Further properties of the handlers *)
(* ===================================================================== *)

Section SelectorMore.
Context {py : PythonRuntime}.

Lemma filter_formats_skips_no_video (resolution : str) (formats : list Format) :
  filter_formats resolution formats
  = filter_formats resolution (filter vcodec_not_none formats).
Proof.
  induction formats as [|f rest IH]; [reflexivity|].
  cbn [filter]. destruct (vcodec_not_none f) eqn:V.
  - cbn [filter_formats]. now rewrite IH.
  - cbn [filter_formats]. unfold format_matches. rewrite V, IH.
    now destruct (filter_formats resolution (filter vcodec_not_none rest)).
Qed.

(** X8.  Entries whose video codec is ["none"] never influence the
    selection: the selector gives the same result, or raises the same
    exception, when they are removed from the list first. *)
Theorem select_format_ignores_audio_only
    (resolution : str) (formats : list Format) :
  select_format resolution formats
  = select_format resolution (filter vcodec_not_none formats).
Proof.
  unfold select_format. now rewrite filter_formats_skips_no_video.
Qed.

(** X9.  Among renditions without a label, the request counts only through
    what is left of it once every ['p'] is deleted: two resolution strings
    that agree after the deletion select the same rendition or fail alike. *)
Theorem unlabeled_selection_by_stripped_resolution
    (resolution resolution' : str) (formats : list Format) :
  (forall f, In f formats -> format_note f = None) ->
  replace_char_empty 112 resolution = replace_char_empty 112 resolution' ->
  select_format resolution formats = select_format resolution' formats.
Proof.
  intros N E. unfold select_format.
  assert (F : filter_formats resolution formats
              = filter_formats resolution' formats).
  { induction formats as [|f rest IH]; [reflexivity|].
    cbn [filter_formats].
    assert (M : format_matches resolution f = format_matches resolution' f).
    { unfold format_matches.
      rewrite (N f (or_introl eq_refl)), E. reflexivity. }
    rewrite M, IH; [reflexivity|].
    intros g Hg. apply N. now right. }
  now rewrite F.
Qed.

(** X10.  The listing loop of [get_formats], started on an empty list,
    yields one entry per format whose video codec is not ["none"], in the
    order of the formats; each entry carries the format's id and extension,
    its size through [format_size], and as resolution the label if there is
    one, else the height followed by [p]. *)
Theorem listing_loop_lists_video_formats (formats : list Format) :
  available_formats_loop formats []
  = map (fun f =>
           {| entry_format_id := format_id f;
              entry_resolution := listing_resolution f;
              entry_filesize := format_size (listing_filesize f);
              entry_ext := ext f |})
        (filter vcodec_not_none formats)
  /\ (List.length (available_formats_loop formats []) <= List.length formats)%nat
  /\ forall e, In e (available_formats_loop formats []) ->
       exists f, In f formats
                 /\ vcodec f <> Some (codes "none")
                 /\ entry_format_id e = format_id f
                 /\ entry_ext e = ext f.
Proof.
  rewrite available_formats_loop_spec. cbn [app].
  split; [reflexivity | split].
  - rewrite length_map. apply filter_length_le.
  - intros e He. apply in_map_iff in He as [f [<- Hf]].
    apply filter_In in Hf as [Hf V].
    exists f. repeat split; [exact Hf | now apply vcodec_not_none_iff].
Qed.

End SelectorMore.

Section HandlersMore.
Context {py : PythonRuntime} {ydl : YoutubeDL}.

(** X11.  When the probe raises, [POST /download] fails with status 400 and
    the text of the exception, whatever the requested resolution is and
    whatever files exist; the extractor is not asked to download. *)
Theorem download_video_probe_failure
    (request : DownloadRequest) (w : World) (message : str) :
  let url := request_url request in
  extract_info (after_makedirs w) url = inl message ->
  fst (download_video request w)
  = Raise (HTTPException 400
             (codes "Failed to fetch video info: " ++ message))
  /\ calls (snd (download_video request w)) = calls w ++ [ExtractInfo url]
  /\ paths (snd (download_video request w)) = paths (after_makedirs w).
Proof.
  intros url Hp. rewrite download_video_run. cbv zeta. fold url.
  rewrite Hp. cbn [fst snd]. unfold after_probe. cbn [calls paths].
  now rewrite after_makedirs_calls.
Qed.

(** X12.  [GET /info] never succeeds: for every URL and every behaviour of
    the probe it raises [HTTPException] with status 500.  The detail wraps
    the 404 of the handler or, when the probe raised, the 400 of
    [get_video_info].  The handler probes once, never downloads, and leaves
    the paths as they were. *)
Theorem get_formats_always_500 (url : str) (w : World) :
  exists inner,
    fst (get_formats url w)
    = Raise (HTTPException 500 (codes "Failed to fetch video info: " ++ inner))
    /\ (inner = codes "404: No valid video formats found."
        \/ exists message,
             extract_info w url = inl message
             /\ inner = codes "400: Failed to fetch video info: " ++ message)
    /\ calls (snd (get_formats url w)) = calls w ++ [ExtractInfo url]
    /\ paths (snd (get_formats url w)) = paths w
    /\ cwd (snd (get_formats url w)) = cwd w.
Proof.
  rewrite get_formats_run. cbn [fst snd calls paths cwd].
  destruct (extract_info w url) as [message|info] eqn:E.
  - exists (codes "400: Failed to fetch video info: " ++ message).
    repeat split; try reflexivity. right. now exists message.
  - exists (codes "404: No valid video formats found.").
    repeat split; try reflexivity. now left.
Qed.

(** X13.  Every run of [POST /download] in which the probe returns is of
    one of two kinds.  Either the extractor is only probed, the paths are
    those found (plus the download directory), and the answer is ["exists"],
    status 404, or the unhandled [ValueError] of the resolution; or the
    extractor is probed and then asked for exactly one download, for a
    rendition of the probed list, and the answer is the [video/mp4] file or
    status 500.  The working directory does not change. *)
Theorem download_video_outcomes
    (request : DownloadRequest) (w : World) (info : InfoDict) :
  let url := request_url request in
  let run := download_video request w in
  extract_info (after_makedirs w) url = inr info ->
  cwd (snd run) = cwd w
  /\ ((calls (snd run) = calls w ++ [ExtractInfo url]
       /\ paths (snd run) = paths (after_makedirs w)
       /\ (fst run = Ok exists_response
           \/ fst run
              = Raise (HTTPException 404 (codes "No matching format found"))
           \/ fst run
              = Raise (ValueError
                         (replace_char_empty 112 (request_resolution request)))))
      \/ (exists selected,
            In selected (get_formats_or_empty info)
            /\ calls (snd run)
               = calls w ++ [ExtractInfo url;
                             Download (make_ydl_opts selected (download_dir w))
                                      url]
            /\ ((exists path filename,
                   fst run = Ok (FileResponse path (codes "video/mp4") filename))
                \/ exists detail, fst run = Raise (HTTPException 500 detail)))).
Proof.
  intros url run Hp. subst run. rewrite download_video_run. cbv zeta.
  fold url. rewrite Hp.
  assert (C : calls (after_probe url w) = calls w ++ [ExtractInfo url]).
  { unfold after_probe. cbn [calls]. now rewrite after_makedirs_calls. }
  assert (W : cwd (after_probe url w) = cwd w).
  { unfold after_probe. cbn [cwd]. apply after_makedirs_cwd. }
  destruct (select_format _ _) as [selected|e] eqn:Hs.
  2:{ cbn [fst snd]. split; [exact W|]. left.
      repeat split; [exact C|]. right.
      destruct (select_format_raise _ _ Hs) as [-> | ->]; auto. }
  destruct (title_exists _ _ _).
  { cbn [fst snd]. split; [exact W|]. left.
    repeat split; [exact C|]. now left. }
  cbn [fst snd]. unfold after_download at 1. cbn [cwd].
  split; [exact W|]. right. exists selected.
  split; [exact (proj1 (select_format_sound _ _ Hs))|].
  split.
  - unfold after_download. cbn [calls]. rewrite C, <- app_assoc. reflexivity.
  - destruct (fst (download _ _ _)).
    + right. eexists. reflexivity.
    + left. eexists. eexists. reflexivity.
Qed.

(** X14.  The downloads directory works as a cache keyed by the sanitized
    title.  If a request reaches the download step and the download leaves
    [<download_dir>/<title>.mp4] behind, then the same request, probed with
    the same result, is answered ["exists"] and causes no second
    download. *)
Theorem second_request_is_served_from_cache
    (request : DownloadRequest) (w : World) (info : InfoDict)
    (selected : Format) :
  let url := request_url request in
  let title := sanitize_filename (get_title_or_video info) in
  let opts := make_ydl_opts selected (download_dir w) in
  let w' := snd (download_video request w) in
  extract_info (after_makedirs w) url = inr info ->
  select_format (request_resolution request) (get_formats_or_empty info)
  = Ok selected ->
  title_exists (download_dir w) title (after_probe url w) = false ->
  In (path_join (download_dir w) (title ++ codes ".mp4"))
     (snd (download (after_probe url w) opts url)) ->
  extract_info (after_makedirs w') url = inr info ->
  fst (download_video request w') = Ok exists_response
  /\ calls (snd (download_video request w'))
     = calls w ++ [ExtractInfo url; Download opts url; ExtractInfo url].
Proof.
  intros url title opts w' Hp Hs Hx Hw Hp'.
  assert (E : w' = after_download opts url (after_probe url w)).
  { subst w'. rewrite download_video_run. cbv zeta. fold url.
    rewrite Hp, Hs. fold title. rewrite Hx. reflexivity. }
  assert (D : download_dir w' = download_dir w).
  { rewrite E. unfold download_dir, after_download, after_probe. cbn [cwd].
    now rewrite after_makedirs_cwd. }
  assert (P : In (path_join (download_dir w) (title ++ codes ".mp4"))
                 (paths (after_probe url w'))).
  { unfold after_probe. cbn [paths].
    apply after_makedirs_keeps_paths. rewrite E. exact Hw. }
  rewrite download_video_run. cbv zeta. fold url.
  rewrite Hp', Hs. fold title. rewrite D.
  assert (X : title_exists (download_dir w) title (after_probe url w') = true).
  { unfold title_exists. apply existsb_exists. exists (codes "mp4").
    split; [now left|]. now apply existsb_str_eqb_In. }
  rewrite X. cbn [fst snd]. split; [reflexivity|].
  unfold after_probe. cbn [calls]. rewrite after_makedirs_calls, E.
  unfold after_download, after_probe. cbn [calls].
  rewrite after_makedirs_calls, <- !app_assoc. reflexivity.
Qed.

End HandlersMore.

(** ** The further properties at the sample data *)

Lemma sanitize_filename_ignores_dropped_witness :
  keep_char (py:=ascii_runtime) 58 = false
  /\ sanitize_filename (py:=ascii_runtime) (codes "a:b")
     = sanitize_filename (py:=ascii_runtime) (codes "ab").
Proof.
  split; [reflexivity|].
  exact (@sanitize_filename_ignores_dropped ascii_runtime
           (codes "a") (codes "b") 58 eq_refl).
Defined.

Lemma download_file_is_child_of_download_dir_witness :
  path_join (download_dir sample_world)
    (sanitize_filename (py:=ascii_runtime) (codes "../etc/passwd")
     ++ [46] ++ codes "mp4")
  = codes "/srv/app/downloads/..etcpasswd.mp4".
Proof.
  exact (proj1 (@download_file_is_child_of_download_dir ascii_runtime
                  sample_world (codes "../etc/passwd") (codes "mp4")
                  (or_introl eq_refl))).
Defined.

Lemma format_size_bytes_exact_witness :
  (- 2 ^ 53 < 1023 < 1024)%Z
  /\ format_size (Some 1023%Z) = codes "1023.00 B".
Proof.
  assert (R : (- 2 ^ 53 < 1023 < 1024)%Z) by (split; reflexivity).
  split; [exact R|].
  exact (@format_size_bytes_exact 1023%Z R).
Defined.

Lemma unlabeled_selection_by_stripped_resolution_witness :
  select_format (py:=ascii_runtime) (codes "360p") [sample_no_vcodec]
  = select_format (py:=ascii_runtime) (codes "p36p0") [sample_no_vcodec].
Proof.
  apply (@unlabeled_selection_by_stripped_resolution ascii_runtime
           (codes "360p") (codes "p36p0") [sample_no_vcodec]);
    [|reflexivity].
  intros f [<-|[]]. reflexivity.
Defined.

Lemma download_video_probe_failure_witness :
  fst (download_video (py:=ascii_runtime)
         (ydl:=stub_ydl_unreachable (codes "network down"))
         sample_request sample_world_cached)
  = Raise (HTTPException 400
             (codes "Failed to fetch video info: network down")).
Proof.
  exact (proj1 (@download_video_probe_failure ascii_runtime
                  (stub_ydl_unreachable (codes "network down"))
                  sample_request sample_world_cached
                  (codes "network down") eq_refl)).
Defined.

Lemma second_request_is_served_from_cache_witness :
  let ydl := stub_ydl sample_info None
               [codes "/srv/app/downloads/My Video Part 1.mp4"] in
  let w' := snd (download_video (py:=ascii_runtime) (ydl:=ydl)
                   sample_request sample_world) in
  fst (download_video (py:=ascii_runtime) (ydl:=ydl) sample_request w')
  = Ok exists_response.
Proof.
  intros ydl w'.
  refine (proj1 (@second_request_is_served_from_cache ascii_runtime ydl
                   sample_request sample_world sample_info sample_video
                   eq_refl eq_refl eq_refl _ eq_refl)).
  simpl. right. right. now left.
Defined.

Lemma format_size_unknown_iff_witness :
  format_size (Some 0%Z) <> codes "Unknown size"
  /\ In 46 (format_size (Some 0%Z)).
Proof.
  assert (R : forall n, Some 0%Z = Some n -> (- 2 ^ 53 < n < 2 ^ 53)%Z).
  { intros n [= <-]. split; reflexivity. }
  destruct (@format_size_unknown_iff (Some 0%Z) R) as [[U _] D].
  split; [|exact (D 0%Z eq_refl)].
  intros E. discriminate (U E).
Defined.

Lemma download_video_outcomes_witness :
  cwd (snd (download_video (py:=ascii_runtime)
              (ydl:=stub_ydl sample_info None [])
              sample_request sample_world))
  = codes "/srv/app".
Proof.
  exact (proj1 (@download_video_outcomes ascii_runtime
                  (stub_ydl sample_info None [])
                  sample_request sample_world sample_info eq_refl)).
Defined.
